(** * SAML 2.0 authentication handler of the LiteLLM proxy

    A shallow embedding of [litellm/proxy/auth/saml_handler.py]
    (class [SAMLAuthenticationHandler]) and the properties of its
    specification.

    - The process environment read through [os.getenv] is a finite map
      from variable names to values.
    - [verbose_proxy_logger] calls and raised exceptions are threaded
      through a small writer/error monad [M].
    - What the handler imports and its sources do not hold enters as the
      interface record [Imports], whose fields are the calls the handler
      makes: the python3-saml objects ([OneLogin_Saml2_Auth],
      [OneLogin_Saml2_Settings]), the constructors of the proxy classes
      [ProxyException] and [CustomOpenID], and the part of the built-in
      [repr] that rests on the Unicode tables of the interpreter. *)

From Stdlib Require Import String Ascii List ZArith Bool Lia.
From stdpp Require Import base option gmap strings list pretty.

Local Open Scope Z_scope.

(* ===================================================================== *)
(** ** Python values used by the handler *)
(* ===================================================================== *)

Module Py.

(** Truth value of a [str]: the empty string is falsy. *)
Definition truthy_str (s : string) : bool :=
  match s with
  | EmptyString => false
  | String _ _ => true
  end.

(** Truth value of an [Optional[str]]: [None] and the empty string are falsy. *)
Definition truthy (v : option string) : bool :=
  match v with
  | None => false
  | Some s => truthy_str s
  end.

(** Truth value of a list or dict (given as its items): empty is falsy. *)
Definition truthy_list {A : Type} (l : list A) : bool :=
  match l with
  | [] => false
  | _ :: _ => true
  end.

(** [a or b] on [Optional[str]] operands: [a] when it is truthy, else [b]. *)
Definition or_ (a b : option string) : option string :=
  if truthy a then a else b.

(** [a and b] on [Optional[str]] operands: [a] when it is falsy, else [b]. *)
Definition and_ (a b : option string) : option string :=
  if truthy a then b else a.

(** [str.lower] on the ASCII letters; other bytes are kept.  No
    non-ASCII character lowers to one of the letters t, r, u, e, so the
    comparison with the literal true made in the handler is unaffected. *)
Definition lower_ascii (c : ascii) : ascii :=
  let n := nat_of_ascii c in
  if (Nat.leb 65 n && Nat.leb n 90)%bool then ascii_of_nat (n + 32) else c.

Fixpoint lower (s : string) : string :=
  match s with
  | EmptyString => EmptyString
  | String c s' => String (lower_ascii c) (lower s')
  end.

(** [sep.join(l)] *)
Fixpoint join (sep : string) (l : list string) : string :=
  match l with
  | [] => ""
  | [x] => x
  | x :: rest => x +:+ sep +:+ join sep rest
  end.

(** [s.startswith(p)] *)
Fixpoint startswith (p s : string) : bool :=
  match p, s with
  | EmptyString, _ => true
  | String a p', String b s' => if Ascii.eqb a b then startswith p' s' else false
  | String _ _, EmptyString => false
  end.

(** [p in s] on strings. *)
Fixpoint contains (p s : string) : bool :=
  if startswith p s then true
  else match s with
       | EmptyString => false
       | String _ s' => contains p s'
       end.

Definition squote : ascii := "039"%char.
Definition dquote : ascii := "034"%char.
Definition backslash : ascii := "092"%char.

Definition hex_digit (n : nat) : ascii :=
  if Nat.ltb n 10 then ascii_of_nat (48 + n) else ascii_of_nat (87 + n).

(** One character of [repr(s)] for an ASCII character, for the quote
    character [q] in use. *)
Definition repr_char (q c : ascii) : string :=
  let n := nat_of_ascii c in
  if Ascii.eqb c backslash then String backslash (String backslash "")
  else if Ascii.eqb c q then String backslash (String q "")
  else if Nat.eqb n 10 then String backslash "n"
  else if Nat.eqb n 13 then String backslash "r"
  else if Nat.eqb n 9 then String backslash "t"
  else if (Nat.ltb n 32 || Nat.eqb n 127)%bool then
    String backslash
      (String "x" (String (hex_digit (Nat.div n 16)) (String (hex_digit (Nat.modulo n 16)) "")))
  else String c "".

Fixpoint repr_body (q : ascii) (s : string) : string :=
  match s with
  | EmptyString => EmptyString
  | String c s' => repr_char q c +:+ repr_body q s'
  end.

Fixpoint has_char (c : ascii) (s : string) : bool :=
  match s with
  | EmptyString => false
  | String d s' => (Ascii.eqb c d || has_char c s')%bool
  end.

(** The text has ASCII characters only. *)
Fixpoint is_ascii (s : string) : bool :=
  match s with
  | EmptyString => true
  | String c s' => (Nat.ltb (nat_of_ascii c) 128 && is_ascii s')%bool
  end.

(** [repr(s)] of an ASCII [str]: single quotes, unless the text has a
    single quote and no double quote. *)
Definition repr_ascii (s : string) : string :=
  let q := if (has_char squote s && negb (has_char dquote s))%bool then dquote else squote in
  String q (repr_body q s +:+ String q "").

(** [repr(s)] of a [str].  Which characters above U+007F are escaped is
    decided by the Unicode tables of the interpreter: for a text with such
    a character the result is [repr_non_ascii s], taken as given. *)
Definition repr_str (repr_non_ascii : string -> string) (s : string) : string :=
  if is_ascii s then repr_ascii s else repr_non_ascii s.

(** A list of [str] as an f-string prints it. *)
Definition repr_list (repr_non_ascii : string -> string) (l : list string) : string :=
  "[" +:+ join ", " (map (repr_str repr_non_ascii) l) +:+ "]".

(** An [Optional[str]] as an f-string prints it. *)
Definition str_opt (v : option string) : string :=
  match v with
  | None => "None"
  | Some s => s
  end.

End Py.

(* ===================================================================== *)
(** ** Environment, exceptions, log records *)
(* ===================================================================== *)

(** [os.getenv(name)] and [os.getenv(name, default)]. *)
Definition getenv (env : gmap string string) (name : string) : option string :=
  env !! name.

Definition getenv_default (env : gmap string string) (name default : string) : string :=
  match env !! name with
  | Some v => v
  | None => default
  end.

(** The call [ProxyException(message=, type=, param=, code=)], by the
    keyword arguments the handler passes; [exc_type] holds the name of the
    [ProxyErrorTypes] member.  The class is in [litellm.proxy._types], not
    among the sources of the handler: what its constructor stores for these
    arguments is [ProxyException_code] of the imports below. *)
Record ProxyException := mkProxyException {
  exc_message : string;
  exc_type : string;
  exc_param : string;
  exc_code : Z
}.

(** [ProxyErrorTypes.auth_error], the only member the handler uses. *)
Definition auth_error : string := "auth_error".

(** What can propagate out of a handler method: the [ProxyException] it
    raises (by the call that builds it), an exception of the SAML library,
    the [ValidationError] of the [CustomOpenID] constructor, or a Python
    [IndexError]. *)
Inductive Exn :=
| ProxyExn (e : ProxyException)
| LibraryExn (msg : string)
| ValidationError (msg : string)
| IndexError.

Inductive LogLevel := DEBUG | INFO | WARNING | ERROR.

Record LogRecord := mkLog { log_level : LogLevel; log_msg : string }.

(** Computations of the handler: the log records emitted so far, and either
    the exception raised or the value returned. *)
Definition M (A : Type) : Type := (list LogRecord * (Exn + A))%type.

Definition ret {A} (a : A) : M A := ([], inr a).
Definition raise {A} (e : Exn) : M A := ([], inl e).
Definition log (lvl : LogLevel) (msg : string) : M unit := ([mkLog lvl msg], inr tt).

Definition bind {A B} (m : M A) (k : A -> M B) : M B :=
  match m with
  | (l, inl e) => (l, inl e)
  | (l, inr a) => let '(l', r) := k a in (l ++ l', r)
  end.

(** A call into the SAML library: it logs nothing through the proxy logger. *)
Definition lift {A} (r : string + A) : M A :=
  match r with
  | inl msg => raise (LibraryExn msg)
  | inr a => ret a
  end.

Declare Scope handler_scope.
Delimit Scope handler_scope with handler.
Notation "x <- c1 ;; c2" := (bind c1 (fun x => c2))
  (at level 100, c1 at next level, right associativity) : handler_scope.
Notation "c1 ;;; c2" := (bind c1 (fun _ => c2))
  (at level 100, right associativity) : handler_scope.

Definition logs {A} (m : M A) : list LogRecord := fst m.
Definition outcome {A} (m : M A) : Exn + A := snd m.

Local Open Scope handler_scope.

(* ===================================================================== *)
(** ** Settings dictionary handed to python3-saml *)
(* ===================================================================== *)

Record Endpoint := mkEndpoint { url : string; binding : string }.

Record SPSettings := mkSP {
  sp_entityId : string;
  sp_assertionConsumerService : Endpoint;
  sp_singleLogoutService : Endpoint;
  sp_NameIDFormat : string;
  sp_x509cert : string;
  sp_privateKey : string
}.

Record IdPSettings := mkIdP {
  idp_entityId : string;
  idp_singleSignOnService : Endpoint;
  idp_singleLogoutService : Endpoint;
  idp_x509cert : string
}.

Record SecuritySettings := mkSecurity {
  nameIdEncrypted : bool;
  authnRequestsSigned : bool;
  logoutRequestSigned : bool;
  logoutResponseSigned : bool;
  signMetadata : bool;
  wantMessagesSigned : bool;
  wantAssertionsSigned : bool;
  wantAssertionsEncrypted : bool;
  wantNameId : bool;
  wantNameIdEncrypted : bool;
  wantAttributeStatement : bool;
  requestedAuthnContext : bool;
  requestedAuthnContextComparison : string;
  signatureAlgorithm : string;
  digestAlgorithm : string
}.

Record SamlSettings := mkSettings {
  strict : bool;
  debug : bool;
  sp : SPSettings;
  idp : IdPSettings;
  security : SecuritySettings
}.

(** The request dictionary python3-saml expects. *)
Record RequestData := mkRequestData {
  https : string;
  http_host : option string;
  server_port : Z;
  script_name : string;
  get_data : gmap string string;
  post_data : gmap string string
}.

(** The parts of a FastAPI [Request] the handler reads; [form] is the
    awaited form data. *)
Record Request := mkRequest {
  url_scheme : string;
  url_hostname : option string;
  url_port : option Z;
  url_path : string;
  query_params : list (string * string);
  form : list (string * string)
}.

(** [dict(items)]: a later item replaces an earlier one with the same key. *)
Definition dict (items : list (string * string)) : gmap string string :=
  list_to_map (reverse items).

(** [bool(s)] of a [str]. *)
Definition bool_ (s : string) : bool := Py.truthy_str s.

(** The check [if not v: raise ProxyException(...)] on a required
    variable; past it [v] is a non-empty [str]. *)
Definition required (v : option string) (exc : ProxyException) : M string :=
  match v with
  | Some s => if Py.truthy_str s then ret s else raise (ProxyExn exc)
  | None => raise (ProxyExn exc)
  end.

Definition HTTP_POST : string := "urn:oasis:names:tc:SAML:2.0:bindings:HTTP-POST".
Definition HTTP_Redirect : string := "urn:oasis:names:tc:SAML:2.0:bindings:HTTP-Redirect".

(** [SAMLAuthenticationHandler._get_saml_settings] *)
Definition _get_saml_settings (env : gmap string string) (request_data : RequestData)
  : M SamlSettings :=
  (* required env variables for SAML *)
  let saml_idp_entity_id := getenv env "SAML_IDP_ENTITY_ID" in
  let saml_idp_sso_url := getenv env "SAML_IDP_SSO_URL" in
  let saml_idp_x509_cert := getenv env "SAML_IDP_X509_CERT" in
  let proxy_base_url := getenv env "PROXY_BASE_URL" in
  (* Validate required settings *)
  saml_idp_entity_id <- required saml_idp_entity_id
    (mkProxyException "SAML_IDP_ENTITY_ID not set. Set it in .env file"
       auth_error "SAML_IDP_ENTITY_ID" 500) ;;
  saml_idp_sso_url <- required saml_idp_sso_url
    (mkProxyException "SAML_IDP_SSO_URL not set. Set it in .env file"
       auth_error "SAML_IDP_SSO_URL" 500) ;;
  saml_idp_x509_cert <- required saml_idp_x509_cert
    (mkProxyException "SAML_IDP_X509_CERT not set. Set it in .env file"
       auth_error "SAML_IDP_X509_CERT" 500) ;;
  proxy_base_url <- required proxy_base_url
    (mkProxyException "PROXY_BASE_URL not set. Required for SAML SSO redirects"
       auth_error "PROXY_BASE_URL" 500) ;;
  (* Optional settings with defaults *)
  let saml_entity_id :=
    getenv_default env "SAML_ENTITY_ID" (proxy_base_url +:+ "/sso/saml/metadata") in
  let saml_name_id_format :=
    getenv_default env "SAML_NAME_ID_FORMAT"
      "urn:oasis:names:tc:SAML:1.1:nameid-format:emailAddress" in
  (* optional service provider (SP) certificate and key *)
  let saml_sp_x509_cert := getenv_default env "SAML_SP_X509_CERT" "" in
  let saml_sp_private_key := getenv_default env "SAML_SP_PRIVATE_KEY" "" in
  (* Build callback URL *)
  let acs_path := getenv_default env "SAML_ACS_PATH" "/sso/saml/acs" in
  let acs_url := proxy_base_url +:+ acs_path in
  let settings :=
    {| strict := true;
       debug := bool_decide (Py.lower (getenv_default env "SAML_DEBUG" "false") = "true");
       sp := {| sp_entityId := saml_entity_id;
                sp_assertionConsumerService := {| url := acs_url; binding := HTTP_POST |};
                sp_singleLogoutService :=
                  {| url := proxy_base_url +:+ "/sso/saml/sls"; binding := HTTP_Redirect |};
                sp_NameIDFormat := saml_name_id_format;
                sp_x509cert := saml_sp_x509_cert;
                sp_privateKey := saml_sp_private_key |};
       idp := {| idp_entityId := saml_idp_entity_id;
                 idp_singleSignOnService :=
                   {| url := saml_idp_sso_url; binding := HTTP_Redirect |};
                 idp_singleLogoutService :=
                   {| url := getenv_default env "SAML_IDP_SLO_URL" "";
                      binding := HTTP_Redirect |};
                 idp_x509cert := saml_idp_x509_cert |};
       security := {| nameIdEncrypted := false;
                      authnRequestsSigned := bool_ saml_sp_private_key;
                      logoutRequestSigned := bool_ saml_sp_private_key;
                      logoutResponseSigned := bool_ saml_sp_private_key;
                      signMetadata := bool_ saml_sp_private_key;
                      wantMessagesSigned := false;
                      wantAssertionsSigned := true;
                      wantAssertionsEncrypted := false;
                      wantNameId := true;
                      wantNameIdEncrypted := false;
                      wantAttributeStatement := false;
                      requestedAuthnContext := true;
                      requestedAuthnContextComparison := "exact";
                      signatureAlgorithm := "http://www.w3.org/2001/04/xmldsig-more#rsa-sha256";
                      digestAlgorithm := "http://www.w3.org/2001/04/xmlenc#sha256" |} |} in
  log DEBUG ("SAML settings built - SP Entity ID: " +:+ saml_entity_id +:+
             ", IdP SSO URL: " +:+ saml_idp_sso_url) ;;;
  ret settings.

(** [SAMLAuthenticationHandler._prepare_request_from_fastapi] *)
Definition _prepare_request_from_fastapi (request : Request) : RequestData :=
  {| https := if bool_decide (url_scheme request = "https") then "on" else "off";
     http_host := url_hostname request;
     server_port :=
       match url_port request with
       | Some p => if bool_decide (p = 0) then
                     (if bool_decide (url_scheme request = "https") then 443 else 80)
                   else p
       | None => if bool_decide (url_scheme request = "https") then 443 else 80
       end;
     script_name := url_path request;
     get_data := dict (query_params request);
     post_data := ∅ |}.

(* ===================================================================== *)
(** ** What the handler imports *)
(* ===================================================================== *)

(** The attribute statement returned by [auth.get_attributes()]: a dict
    from attribute name to its values, in insertion order. *)
Definition Attributes : Type := list (string * list string).

(** What the handler reads off an [OneLogin_Saml2_Auth] object once
    [process_response()] has run. *)
Record SamlAuth := mkAuth {
  get_errors : list string;
  get_last_error_reason : option string;
  is_authenticated : bool;
  get_attributes : option Attributes;
  get_nameid : option string
}.

(** [CustomOpenID]: the keyword arguments of the call [CustomOpenID(...)]
    the handler makes, and the fields of the instance handed on to the SSO
    flow.  The class is in [litellm.proxy.management_endpoints.types], not
    among the sources of the handler; its constructor is
    [CustomOpenID_init] of the imports below. *)
Record CustomOpenID := mkCustomOpenID {
  id : option string;
  email : option string;
  first_name : option string;
  last_name : option string;
  display_name : option string;
  provider : option string;
  team_ids : list string
}.

(** The calls the handler makes into what it imports.  Each takes the
    arguments the handler passes. *)
Record Imports := mkImports {
  (** [OneLogin_Saml2_Auth(request_data, settings).login(return_to=state)];
      the left injection is an exception of the library, by its text. *)
  Saml2_Auth_login : RequestData -> SamlSettings -> option string -> string + string;
  (** [OneLogin_Saml2_Auth(request_data, settings)] then [process_response()] *)
  Saml2_Auth_process_response : RequestData -> SamlSettings -> string + SamlAuth;
  (** [OneLogin_Saml2_Settings(settings=...).get_sp_metadata()] *)
  Saml2_Settings_get_sp_metadata : SamlSettings -> string + string;
  (** [settings.validate_metadata(metadata)] *)
  Saml2_Settings_validate_metadata : SamlSettings -> string -> string + list string;
  (** The [code] attribute the constructor of [ProxyException] stores for
      the arguments of a call: the HTTP status the proxy answers with. *)
  ProxyException_code : ProxyException -> string;
  (** [CustomOpenID(...)] on keyword arguments: the instance pydantic
      builds, or its [ValidationError], by its text. *)
  CustomOpenID_init : CustomOpenID -> string + CustomOpenID;
  (** [repr(s)] for a [str] with a character above U+007F. *)
  repr_non_ascii : string -> string
}.

(** [attributes.get(attr_name, [])] *)
Fixpoint dict_get (attributes : Attributes) (attr_name : string) : list string :=
  match attributes with
  | [] => []
  | (k, v) :: rest => if bool_decide (k = attr_name) then v else dict_get rest attr_name
  end.

(** [list(attributes.keys())] *)
Definition keys (attributes : Attributes) : list string := map fst attributes.

(** [not attributes]: [None] and the empty dict are falsy. *)
Definition truthy_attributes (attributes : option Attributes) : bool :=
  match attributes with
  | None => false
  | Some d => Py.truthy_list d
  end.

(** [l[0]]: raises [IndexError] on an empty list. *)
Definition index0 (l : list string) : M string :=
  match l with
  | [] => raise IndexError
  | x :: _ => ret x
  end.

(** The closure [get_attr_value] of [process_saml_response]. *)
Definition get_attr_value (attributes : option Attributes) (attr_name : string)
  : M (option string) :=
  if negb (truthy_attributes attributes) then ret None
  else
    let attr_values := dict_get (default [] attributes) attr_name in
    if Py.truthy_list attr_values then (v <- index0 attr_values ;; ret (Some v))
    else ret None.

(** The part of [process_saml_response] after the assertion was accepted,
    up to the call that builds the result: from the attribute-name lookups
    to the keyword arguments of [CustomOpenID(...)].  Its [id] and [email]
    are the locals [user_id] and [user_email]. *)
Definition identity_arguments (env : gmap string string)
    (attributes : option Attributes) (name_id : option string) : M CustomOpenID :=
  (* Get attribute names from environment or use defaults *)
  let user_id_attr := getenv_default env "SAML_USER_ID_ATTRIBUTE" "email" in
  let user_email_attr := getenv_default env "SAML_USER_EMAIL_ATTRIBUTE" "email" in
  let user_first_name_attr := getenv_default env "SAML_USER_FIRST_NAME_ATTRIBUTE" "firstName" in
  let user_last_name_attr := getenv_default env "SAML_USER_LAST_NAME_ATTRIBUTE" "lastName" in
  let user_display_name_attr :=
    getenv_default env "SAML_USER_DISPLAY_NAME_ATTRIBUTE" "displayName" in
  (* Extract user information - fallback to NameID if attributes not present *)
  v_id <- get_attr_value attributes user_id_attr ;;
  let user_id := Py.or_ v_id name_id in
  v_email <- get_attr_value attributes user_email_attr ;;
  let user_email := Py.or_ v_email name_id in
  user_first_name <- get_attr_value attributes user_first_name_attr ;;
  user_last_name <- get_attr_value attributes user_last_name_attr ;;
  user_display_name <- get_attr_value attributes user_display_name_attr ;;
  (* If display name not provided, construct from first/last name *)
  let user_display_name :=
    if (negb (Py.truthy user_display_name) && Py.truthy user_first_name
        && Py.truthy user_last_name)%bool
    then Some (Py.str_opt user_first_name +:+ " " +:+ Py.str_opt user_last_name)
    else if negb (Py.truthy user_display_name) then user_email
    else user_display_name in
  ret {| id := user_id;
         email := user_email;
         first_name := user_first_name;
         last_name := user_last_name;
         display_name := user_display_name;
         provider := Some "saml";
         team_ids := [] |}.

(** The call [CustomOpenID(...)] on the keyword arguments [args]. *)
Definition new_CustomOpenID (lib : Imports) (args : CustomOpenID) : M CustomOpenID :=
  match CustomOpenID_init lib args with
  | inl msg => raise (ValidationError msg)
  | inr result => ret result
  end.

(** The mapping step of [process_saml_response]: the arguments, then the
    call that builds the result. *)
Definition map_identity (lib : Imports) (env : gmap string string)
    (attributes : option Attributes) (name_id : option string) : M CustomOpenID :=
  args <- identity_arguments env attributes name_id ;;
  new_CustomOpenID lib args.

(** [request_data["post_data"] = d] *)
Definition set_post_data (request_data : RequestData) (d : gmap string string) : RequestData :=
  {| https := https request_data;
     http_host := http_host request_data;
     server_port := server_port request_data;
     script_name := script_name request_data;
     get_data := get_data request_data;
     post_data := d |}.

(** The request dictionary [get_metadata] makes up. *)
Definition metadata_request_data (env : gmap string string) : RequestData :=
  {| https := if Py.startswith "https" (getenv_default env "PROXY_BASE_URL" "")
              then "on" else "off";
     http_host := Some "localhost";
     server_port := 443;
     script_name := "/";
     get_data := ∅;
     post_data := ∅ |}.

Section Handler.

(** What the handler imports. *)
Variable lib : Imports.

(** [SAMLAuthenticationHandler.get_login_url] *)
Definition get_login_url (env : gmap string string) (request : Request)
    (state : option string) : M string :=
  let request_data := _prepare_request_from_fastapi request in
  saml_settings <- _get_saml_settings env request_data ;;
  sso_url <- lift (Saml2_Auth_login lib request_data saml_settings state) ;;
  log DEBUG ("Generated SAML login URL: " +:+ sso_url) ;;;
  ret sso_url.

(** [SAMLAuthenticationHandler.process_saml_response] *)
Definition process_saml_response (env : gmap string string) (request : Request)
  : M CustomOpenID :=
  let request_data := _prepare_request_from_fastapi request in
  let form_data := form request in
  let request_data := set_post_data request_data (dict form_data) in
  saml_settings <- _get_saml_settings env request_data ;;
  (* Process the SAML response *)
  auth <- lift (Saml2_Auth_process_response lib request_data saml_settings) ;;
  let errors := get_errors auth in
  if Py.truthy_list errors then
    let error_reason := get_last_error_reason auth in
    log ERROR ("SAML authentication failed - Errors: " +:+
               Py.repr_list (repr_non_ascii lib) errors +:+
               ", Reason: " +:+ Py.str_opt error_reason) ;;;
    raise (ProxyExn (mkProxyException
                       ("SAML authentication failed: " +:+ Py.str_opt error_reason)
                       auth_error "saml_response" 401))
  else if negb (is_authenticated auth) then
    log ERROR "SAML authentication failed - User not authenticated" ;;;
    raise (ProxyExn (mkProxyException
                       "SAML authentication failed: User not authenticated"
                       auth_error "saml_response" 401))
  else
    (* Extract user attributes from SAML assertion *)
    let attributes := get_attributes auth in
    let name_id := get_nameid auth in
    (* Log what we received *)
    (if truthy_attributes attributes then
       log DEBUG ("SAML authentication successful - NameID: " +:+ Py.str_opt name_id +:+
                  ", Attributes: " +:+
                  Py.repr_list (repr_non_ascii lib) (keys (default [] attributes)))
     else
       log WARNING ("SAML authentication successful but no attributes received - NameID: "
                    +:+ Py.str_opt name_id +:+ ". " +:+
                    "Will use NameID as fallback for user information.")) ;;;
    args <- identity_arguments env attributes name_id ;;
    (* Build CustomOpenID response *)
    result <- new_CustomOpenID lib args ;;
    log INFO ("SAML user authenticated - ID: " +:+ Py.str_opt (id args) +:+
              ", Email: " +:+ Py.str_opt (email args)) ;;;
    ret result.

(** [SAMLAuthenticationHandler.get_metadata] *)
Definition get_metadata (env : gmap string string) : M string :=
  (* Create a dummy request for settings generation *)
  let request_data := metadata_request_data env in
  saml_settings <- _get_saml_settings env request_data ;;
  metadata <- lift (Saml2_Settings_get_sp_metadata lib saml_settings) ;;
  errors <- lift (Saml2_Settings_validate_metadata lib saml_settings metadata) ;;
  if Py.truthy_list errors then
    log ERROR ("SAML metadata validation errors: " +:+
               Py.repr_list (repr_non_ascii lib) errors) ;;;
    raise (ProxyExn (mkProxyException
                       ("SAML metadata validation failed: " +:+ Py.join ", " errors)
                       auth_error "saml_metadata" 500))
  else ret metadata.

End Handler.

(** [SAMLAuthenticationHandler.should_use_saml_handler] *)
Definition should_use_saml_handler (env : gmap string string) : bool :=
  Py.truthy
    (Py.and_ (Py.and_ (getenv env "SAML_IDP_ENTITY_ID") (getenv env "SAML_IDP_SSO_URL"))
             (getenv env "SAML_IDP_X509_CERT")).

(* ===================================================================== *)
(** ** Inputs of the test suite *)
(* ===================================================================== *)

(** The environment of the test fixture [mock_saml_env_vars], with a short
    placeholder for the certificate text. *)
Definition mock_saml_env_vars : gmap string string :=
  <["SAML_IDP_ENTITY_ID" := "https://idp.example.com"]>
  (<["SAML_IDP_SSO_URL" := "https://idp.example.com/sso"]>
  (<["SAML_IDP_X509_CERT" := "MIICXDCCAcWgAwIBAgIBADANBgkqhkiG9w0BAQ0FADBL"]>
  (<["PROXY_BASE_URL" := "https://proxy.example.com"]>
  (<["SAML_USER_ID_ATTRIBUTE" := "email"]>
  (<["SAML_USER_EMAIL_ATTRIBUTE" := "email"]>
  (<["SAML_USER_FIRST_NAME_ATTRIBUTE" := "firstName"]>
  (<["SAML_USER_LAST_NAME_ATTRIBUTE" := "lastName"]> ∅))))))).

(** The request of the tests: a POST to the assertion consumer service. *)
Definition mock_request : Request :=
  {| url_scheme := "https";
     url_hostname := Some "proxy.example.com";
     url_port := Some 443;
     url_path := "/sso/saml/acs";
     query_params := [];
     form := [("SAMLResponse", "mock_saml_response")] |}.

Definition dummy_request_data : RequestData :=
  {| https := "on"; http_host := Some "proxy.example.com"; server_port := 443;
     script_name := "/"; get_data := ∅; post_data := ∅ |}.

(* ===================================================================== *)
(** ** Notions the properties are stated with, and sample inputs *)
(* ===================================================================== *)

(** A variable is set to a non-empty value. *)
Definition nonempty (env : gmap string string) (name : string) : Prop :=
  exists v, env !! name = Some v /\ v <> "".

(** The required variables, in the order [_get_saml_settings] checks them. *)
Definition required_fields : list string :=
  ["SAML_IDP_ENTITY_ID"; "SAML_IDP_SSO_URL"; "SAML_IDP_X509_CERT"; "PROXY_BASE_URL"].

Definition missing (env : gmap string string) (name : string) : bool :=
  negb (Py.truthy (getenv env name)).

(** The first required variable that is unset or empty, if any. *)
Definition first_missing (env : gmap string string) : option string :=
  List.find (missing env) required_fields.

(** The specification wants the IdP certificate PEM-decodable; the handler
    has no parser.  [pem_text] is a necessary condition for any PEM decoding
    to succeed: the text holds only base64 characters, padding, white space
    and the dashes of the armour lines. *)
Definition pem_char (c : ascii) : bool :=
  let n := nat_of_ascii c in
  ((Nat.leb 65 n && Nat.leb n 90) || (Nat.leb 97 n && Nat.leb n 122)
   || (Nat.leb 48 n && Nat.leb n 57)
   || Nat.eqb n 43 || Nat.eqb n 47 || Nat.eqb n 61 || Nat.eqb n 45
   || Nat.eqb n 32 || Nat.eqb n 10 || Nat.eqb n 13)%bool.

Fixpoint pem_text (s : string) : bool :=
  match s with
  | EmptyString => true
  | String c s' => (pem_char c && pem_text s')%bool
  end.

(** The test [test_get_saml_settings_missing_idp_entity_id], and an
    environment with every required variable set. *)
Definition env_without_idp_entity_id : gmap string string :=
  <["SAML_IDP_SSO_URL" := "https://idp.example.com/sso"]>
  (<["SAML_IDP_X509_CERT" := "mock_cert"]>
  (<["PROXY_BASE_URL" := "https://proxy.example.com"]> ∅)).

(** An environment that supplies an SP private key and no SP certificate. *)
Definition env_key_without_certificate : gmap string string :=
  <["SAML_SP_PRIVATE_KEY" := "MIIEvQIBADANBgkqhkiG9w0BAQEFAASC"]> mock_saml_env_vars.

(** The first value listed for attribute [name], if the statement has the
    attribute with at least one value. *)
Definition first_value (attributes : option Attributes) (name : string) : option string :=
  match attributes with
  | None => None
  | Some d => head (dict_get d name)
  end.

(** A looked-up value counts when it is there and is not the empty string. *)
Definition usable (v : option string) : bool :=
  match v with
  | Some s => negb (bool_decide (s = ""))
  | None => false
  end.

(** The keyword arguments of [CustomOpenID(...)] in the words of the
    specification, with the reading of absent that the handler implements:
    a field whose first value is missing or empty is absent. *)
Definition identity_of (env : gmap string string)
    (attributes : option Attributes) (name_id : option string) : CustomOpenID :=
  let field var dflt := first_value attributes (getenv_default env var dflt) in
  let v_id := field "SAML_USER_ID_ATTRIBUTE" "email" in
  let v_email := field "SAML_USER_EMAIL_ATTRIBUTE" "email" in
  let v_first := field "SAML_USER_FIRST_NAME_ATTRIBUTE" "firstName" in
  let v_last := field "SAML_USER_LAST_NAME_ATTRIBUTE" "lastName" in
  let v_display := field "SAML_USER_DISPLAY_NAME_ATTRIBUTE" "displayName" in
  let the_email := if usable v_email then v_email else name_id in
  {| id := if usable v_id then v_id else name_id;
     email := the_email;
     first_name := v_first;
     last_name := v_last;
     display_name :=
       if usable v_display then v_display
       else match v_first, v_last with
            | Some f, Some l =>
                if (usable v_first && usable v_last)%bool then Some (f +:+ " " +:+ l)
                else the_email
            | _, _ => the_email
            end;
     provider := Some "saml";
     team_ids := [] |}.

(** The request dictionary [process_saml_response] hands to the library. *)
Definition response_request_data (request : Request) : RequestData :=
  set_post_data (_prepare_request_from_fastapi request) (dict (form request)).

(** An error names a failure subtype when its type is that subtype or its
    message includes the subtype. *)
Definition names_subtype (subtype : string) (e : ProxyException) : bool :=
  (bool_decide (exc_type e = subtype) || Py.contains subtype (exc_message e))%bool.

(** The state of the library object for a response whose signature does not
    verify, with the error and reason python3-saml gives. *)
Definition bad_signature_auth : SamlAuth :=
  {| get_errors := ["invalid_response"];
     get_last_error_reason := Some "Signature validation failed. SAML Response rejected";
     is_authenticated := false;
     get_attributes := Some [];
     get_nameid := None |}.

(** The library object of [test_process_saml_response_success]. *)
Definition mock_success_auth : SamlAuth :=
  {| get_errors := [];
     get_last_error_reason := None;
     is_authenticated := true;
     get_attributes := Some [("email", ["user@example.com"]); ("firstName", ["John"]);
                             ("lastName", ["Doe"]); ("displayName", ["John Doe"])];
     get_nameid := Some "user@example.com" |}.

(** Stand-ins for the two proxy classes in the sample runs, with the
    behaviour of the real constructors that bears on the handler.  The
    constructor of [ProxyException] stores the code as text, and stores 429
    for a message that holds one of two texts of the router. *)
Definition router_rule_code (e : ProxyException) : string :=
  if (Py.contains "No healthy deployment available" (exc_message e)
      || Py.contains "No deployments available" (exc_message e))%bool
  then "429"
  else pretty (exc_code e).

(** The text before and after the first at sign, if there is one. *)
Fixpoint split_at_sign (s : string) : option (string * string) :=
  match s with
  | EmptyString => None
  | String c s' =>
      if Ascii.eqb c "@"%char then Some (EmptyString, s')
      else match split_at_sign s' with
           | Some (l, d) => Some (String c l, d)
           | None => None
           end
  end.

(** The constructor of [CustomOpenID] checks that the e-mail, when there
    is one, is an address (here: one at sign, with text on both sides) and
    stores it with the domain in lower case; the other arguments are
    stored as they are. *)
Definition checked_CustomOpenID (args : CustomOpenID) : string + CustomOpenID :=
  match email args with
  | None => inr args
  | Some s =>
      match split_at_sign s with
      | Some (String c l, String d ds) =>
          if Py.has_char "@"%char (String d ds)
          then inl "value is not a valid email address"
          else inr {| id := id args;
                      email := Some (String c l +:+ "@" +:+ Py.lower (String d ds));
                      first_name := first_name args;
                      last_name := last_name args;
                      display_name := display_name args;
                      provider := provider args;
                      team_ids := team_ids args |}
      | _ => inl "value is not a valid email address"
      end
  end.

(** A stand-in for the imports as the tests patch them in:
    [process_response] leaves the object in state [auth], and the metadata
    validates. *)
Definition mock_lib (auth : SamlAuth) : Imports :=
  {| Saml2_Auth_login := fun _ _ _ => inr "https://idp.example.com/sso?SAMLRequest=...";
     Saml2_Auth_process_response := fun _ _ => inr auth;
     Saml2_Settings_get_sp_metadata :=
       fun _ => inr "<md:EntityDescriptor>...</md:EntityDescriptor>";
     Saml2_Settings_validate_metadata := fun _ _ => inr [];
     ProxyException_code := router_rule_code;
     CustomOpenID_init := checked_CustomOpenID;
     repr_non_ascii := Py.repr_ascii |}.

(** A library whose metadata misses a required element. *)
Definition invalid_metadata_lib : Imports :=
  {| Saml2_Auth_login := fun _ _ _ => inr "https://idp.example.com/sso?SAMLRequest=...";
     Saml2_Auth_process_response := fun _ _ => inr mock_success_auth;
     Saml2_Settings_get_sp_metadata := fun _ => inr "<md:EntityDescriptor/>";
     Saml2_Settings_validate_metadata := fun _ _ => inr ["noEntityDescriptor_xml"; "sp_acs_not_found"];
     ProxyException_code := router_rule_code;
     CustomOpenID_init := checked_CustomOpenID;
     repr_non_ascii := Py.repr_ascii |}.

(** The HTTP code with which a failed handler method surfaces: the [code]
    attribute of the [ProxyException] raised, if one was raised. *)
Definition surfaced_code {A} (lib : Imports) (m : M A) : option string :=
  match outcome m with
  | inl (ProxyExn e) => Some (ProxyException_code lib e)
  | _ => None
  end.

(** The state of the library object for a response that is not from the
    IdP and whose status is not Success: python3-saml puts the status
    message, which the sender chooses, into the reason. *)
Definition forged_status_auth : SamlAuth :=
  {| get_errors := ["invalid_response"];
     get_last_error_reason :=
       Some "The status code of the Response was not Success, was Responder -> No deployments available";
     is_authenticated := false;
     get_attributes := Some [];
     get_nameid := None |}.

(** The environment with the three secret variables removed. *)
Definition redact (env : gmap string string) : gmap string string :=
  delete "SAML_SP_PRIVATE_KEY" (delete "SAML_SP_X509_CERT" (delete "SAML_IDP_X509_CERT" env)).

(** Two environments differ at most in the values of the SP private key,
    the SP certificate and the IdP certificate. *)
Definition low_equiv (env1 env2 : gmap string string) : Prop :=
  redact env1 = redact env2.

(** The one record settings construction logs, from the variables it
    shows. *)
Definition settings_built_record (env : gmap string string) : LogRecord :=
  mkLog DEBUG
    ("SAML settings built - SP Entity ID: " +:+
     getenv_default env "SAML_ENTITY_ID"
       (Py.str_opt (getenv env "PROXY_BASE_URL") +:+ "/sso/saml/metadata") +:+
     ", IdP SSO URL: " +:+ Py.str_opt (getenv env "SAML_IDP_SSO_URL")).

(** Two environments with different keys and certificates throughout. *)
Definition env_secrets_a : gmap string string :=
  <["SAML_SP_PRIVATE_KEY" := "MIIEvQIBADANBgkqhkiG9w0BAQEFAASC"]>
  (<["SAML_SP_X509_CERT" := "MIIDdzCCAl+gAwIBAgIEAgAAuTANBgkq"]> mock_saml_env_vars).

Definition env_secrets_b : gmap string string :=
  <["SAML_SP_PRIVATE_KEY" := "MIIEowIBAAKCAQEAr3mZ0fE8u1nq"]>
  (<["SAML_IDP_X509_CERT" := "MIIC8DCCAdigAwIBAgIQc3Z7L0mXw"]> mock_saml_env_vars).

(** A stand-in library whose verdict depends on the configured IdP
    certificate, as signature verification does: the response is accepted
    only under the certificate [cert]. *)
Definition pinned_lib (cert : string) : Imports :=
  {| Saml2_Auth_login := fun _ _ _ => inr "https://idp.example.com/sso?SAMLRequest=...";
     Saml2_Auth_process_response :=
       fun _ st => inr (if bool_decide (idp_x509cert (idp st) = cert)
                        then mock_success_auth else bad_signature_auth);
     Saml2_Settings_get_sp_metadata :=
       fun _ => inr "<md:EntityDescriptor>...</md:EntityDescriptor>";
     Saml2_Settings_validate_metadata := fun _ _ => inr [];
     ProxyException_code := router_rule_code;
     CustomOpenID_init := checked_CustomOpenID;
     repr_non_ascii := Py.repr_ascii |}.

(* ===================================================================== *)
(** ** Further notions, for the properties beyond the specification *)
(* ===================================================================== *)

(** The attribute names [process_saml_response] looks up, in the order of
    the lookups. *)
Definition attribute_names (env : gmap string string) : list string :=
  [getenv_default env "SAML_USER_ID_ATTRIBUTE" "email";
   getenv_default env "SAML_USER_EMAIL_ATTRIBUTE" "email";
   getenv_default env "SAML_USER_FIRST_NAME_ATTRIBUTE" "firstName";
   getenv_default env "SAML_USER_LAST_NAME_ATTRIBUTE" "lastName";
   getenv_default env "SAML_USER_DISPLAY_NAME_ATTRIBUTE" "displayName"].

(** The sixteen ways of writing true in upper and lower case letters. *)
Definition true_spellings : list string :=
  ["true"; "truE"; "trUe"; "trUE"; "tRue"; "tRuE"; "tRUe"; "tRUE";
   "True"; "TruE"; "TrUe"; "TrUE"; "TRue"; "TRuE"; "TRUe"; "TRUE"].

(** A login request with a query string and an explicit port. *)
Definition mock_login_request : Request :=
  {| url_scheme := "http";
     url_hostname := Some "localhost";
     url_port := Some 4000;
     url_path := "/sso/key/generate";
     query_params := [("source", "ui")];
     form := [] |}.

(** A POST to the assertion consumer service that carries the field
    SAMLResponse twice. *)
Definition mock_double_post : Request :=
  {| url_scheme := "https";
     url_hostname := Some "proxy.example.com";
     url_port := None;
     url_path := "/sso/saml/acs";
     query_params := [];
     form := [("SAMLResponse", "first"); ("RelayState", "/ui")]
             ++ [("SAMLResponse", "second")] |}.

(** A configuration with its own entity id and consumer path, and a base
    URL that ends with a slash. *)
Definition env_custom_paths : gmap string string :=
  <["PROXY_BASE_URL" := "https://proxy.example.com/"]>
  (<["SAML_ENTITY_ID" := "litellm-proxy"]>
  (<["SAML_ACS_PATH" := "/custom/acs"]> mock_saml_env_vars)).

(** A library that raises on every call. *)
Definition raising_lib : Imports :=
  {| Saml2_Auth_login := fun _ _ _ => inl "Invalid dict settings: idp_cert_not_found";
     Saml2_Auth_process_response :=
       fun _ _ => inl "SAML Response not found, Only supported HTTP_POST Binding";
     Saml2_Settings_get_sp_metadata := fun _ => inl "Invalid dict settings: sp_cert_invalid";
     Saml2_Settings_validate_metadata := fun _ _ => inl "metadata is not a string";
     ProxyException_code := router_rule_code;
     CustomOpenID_init := checked_CustomOpenID;
     repr_non_ascii := Py.repr_ascii |}.

(* ===================================================================== *)
(** ** The handler on the inputs of its tests *)
(* ===================================================================== *)

(** [test_should_use_saml_handler_enabled] and [..._disabled] *)
Example test_should_use_saml_handler :
  should_use_saml_handler mock_saml_env_vars = true /\
  should_use_saml_handler ∅ = false.
Proof. split; reflexivity. Qed.

(** [test_process_saml_response_success] *)
Example test_process_saml_response_success :
  outcome (process_saml_response (mock_lib mock_success_auth) mock_saml_env_vars
             mock_request)
  = inr {| id := Some "user@example.com"; email := Some "user@example.com";
           first_name := Some "John"; last_name := Some "Doe";
           display_name := Some "John Doe";
           provider := Some "saml"; team_ids := [] |}.
Proof. vm_compute. reflexivity. Qed.

(** [test_process_saml_response_auth_failed] *)
Example test_process_saml_response_auth_failed :
  outcome (process_saml_response
             (mock_lib {| get_errors := ["invalid_response"];
                          get_last_error_reason := Some "Invalid SAML response";
                          is_authenticated := false;
                          get_attributes := None;
                          get_nameid := None |})
             mock_saml_env_vars mock_request)
  = inl (ProxyExn (mkProxyException "SAML authentication failed: Invalid SAML response"
                     auth_error "saml_response" 401)).
Proof. vm_compute. reflexivity. Qed.

(** A run in which the constructor of [CustomOpenID] changes the e-mail:
    the record holds the e-mail as stored, the id and the info record hold
    the value the handler read. *)
Example run_with_upper_case_domain :
  process_saml_response
    (mock_lib {| get_errors := [];
                 get_last_error_reason := None;
                 is_authenticated := true;
                 get_attributes := Some [("email", ["User@EXAMPLE.COM"])];
                 get_nameid := Some "User@EXAMPLE.COM" |})
    mock_saml_env_vars mock_request
  = ([mkLog DEBUG
        "SAML settings built - SP Entity ID: https://proxy.example.com/sso/saml/metadata, IdP SSO URL: https://idp.example.com/sso";
      mkLog DEBUG
        "SAML authentication successful - NameID: User@EXAMPLE.COM, Attributes: ['email']";
      mkLog INFO
        "SAML user authenticated - ID: User@EXAMPLE.COM, Email: User@EXAMPLE.COM"],
     inr {| id := Some "User@EXAMPLE.COM"; email := Some "User@example.com";
            first_name := None; last_name := None;
            display_name := Some "User@EXAMPLE.COM";
            provider := Some "saml"; team_ids := [] |}).
Proof. vm_compute. reflexivity. Qed.

(** [test_get_metadata] and [test_get_login_url] *)
Example test_get_metadata_and_login_url :
  outcome (get_metadata (mock_lib mock_success_auth) mock_saml_env_vars)
  = inr "<md:EntityDescriptor>...</md:EntityDescriptor>" /\
  outcome (get_login_url (mock_lib mock_success_auth) mock_saml_env_vars mock_request None)
  = inr "https://idp.example.com/sso?SAMLRequest=...".
Proof. split; vm_compute; reflexivity. Qed.

(** [test_get_saml_settings_missing_idp_entity_id] *)
Example test_get_saml_settings_missing_idp_entity_id :
  outcome (_get_saml_settings env_without_idp_entity_id dummy_request_data)
  = inl (ProxyExn (mkProxyException "SAML_IDP_ENTITY_ID not set. Set it in .env file"
                     auth_error "SAML_IDP_ENTITY_ID" 500)).
Proof. reflexivity. Qed.

(* ===================================================================== *)
(** ** Settings construction *)
(* ===================================================================== *)

Lemma truthy_str_nonempty s : Py.truthy_str s = true <-> s <> "".
Proof. destruct s; simpl; split; congruence. Qed.

Lemma truthy_nonempty env name : Py.truthy (getenv env name) = true <-> nonempty env name.
Proof.
  unfold nonempty, getenv. destruct (env !! name) as [v|]; simpl.
  - rewrite truthy_str_nonempty. split.
    + intros H. exists v. auto.
    + intros (w & Hw & Hne). congruence.
  - split; [discriminate | intros (w & Hw & _); discriminate].
Qed.

Lemma missing_false env name : missing env name = false <-> nonempty env name.
Proof. unfold missing. rewrite negb_false_iff. apply truthy_nonempty. Qed.

Lemma required_truthy v exc :
  Py.truthy v = true -> exists s, v = Some s /\ s <> "" /\ required v exc = ret s.
Proof.
  destruct v as [s|]; simpl; [|discriminate].
  intros H. exists s. rewrite H. repeat split. now apply truthy_str_nonempty.
Qed.

Lemma required_falsy v exc : Py.truthy v = false -> required v exc = raise (ProxyExn exc).
Proof. destruct v as [s|]; simpl; [intros ->|]; reflexivity. Qed.

(** Splits on the four required variables in the order of the checks. *)
Ltac required_cases env :=
  unfold _get_saml_settings;
  destruct (Py.truthy (getenv env "SAML_IDP_ENTITY_ID")) eqn:Hid;
  [ destruct (required_truthy _
      (mkProxyException "SAML_IDP_ENTITY_ID not set. Set it in .env file"
         auth_error "SAML_IDP_ENTITY_ID" 500) Hid) as (vid & Eid & Nid & ->)
  | rewrite (required_falsy _ _ Hid) ];
  [ destruct (Py.truthy (getenv env "SAML_IDP_SSO_URL")) eqn:Hsso;
    [ destruct (required_truthy _
        (mkProxyException "SAML_IDP_SSO_URL not set. Set it in .env file"
           auth_error "SAML_IDP_SSO_URL" 500) Hsso) as (vsso & Esso & Nsso & ->)
    | rewrite (required_falsy _ _ Hsso) ];
    [ destruct (Py.truthy (getenv env "SAML_IDP_X509_CERT")) eqn:Hcert;
      [ destruct (required_truthy _
          (mkProxyException "SAML_IDP_X509_CERT not set. Set it in .env file"
             auth_error "SAML_IDP_X509_CERT" 500) Hcert) as (vcert & Ecert & Ncert & ->)
      | rewrite (required_falsy _ _ Hcert) ];
      [ destruct (Py.truthy (getenv env "PROXY_BASE_URL")) eqn:Hbase;
        [ destruct (required_truthy _
            (mkProxyException "PROXY_BASE_URL not set. Required for SAML SSO redirects"
               auth_error "PROXY_BASE_URL" 500) Hbase) as (vbase & Ebase & Nbase & ->)
        | rewrite (required_falsy _ _ Hbase) ]
      | ]
    | ]
  | ];
  cbn [bind ret raise log app fst snd outcome logs].

(** Whether settings construction succeeds is decided by the four required
    variables alone. *)
Lemma settings_accepted_iff env rd :
  (exists st, outcome (_get_saml_settings env rd) = inr st) <-> first_missing env = None.
Proof.
  unfold first_missing, required_fields, missing. simpl.
  required_cases env; simpl; split; intros H;
    try discriminate; try (destruct H; discriminate); eauto.
Qed.

(** C2, amended.  When a required variable (IdP entity id, IdP SSO URL, IdP
    certificate, proxy base URL) is unset or empty, settings construction
    raises a [ProxyException] of type [auth_error] with code 500 whose
    [param] and message name the first such variable in checking order; no
    log record is emitted and no library call is made, also in the three
    methods that start with settings construction.  Otherwise the settings
    are built and carry the certificate text as configured: it is not
    parsed. *)
Theorem missing_required_field_raises (env : gmap string string) (rd : RequestData) :
  (forall field, first_missing env = Some field ->
     exists e, _get_saml_settings env rd = ([], inl (ProxyExn e)) /\
       exc_code e = 500 /\ exc_type e = auth_error /\ exc_param e = field /\
       Py.startswith (field +:+ " not set") (exc_message e) = true /\
       (forall lib request,
          process_saml_response lib env request = ([], inl (ProxyExn e))) /\
       (forall lib request state,
          get_login_url lib env request state = ([], inl (ProxyExn e))) /\
       (forall lib, get_metadata lib env = ([], inl (ProxyExn e)))) /\
  (first_missing env = None ->
     exists st, outcome (_get_saml_settings env rd) = inr st /\
       env !! "SAML_IDP_X509_CERT" = Some (idp_x509cert (idp st))).
Proof.
  split.
  - intros field Hf. unfold first_missing, required_fields, missing in Hf. simpl in Hf.
    unfold process_saml_response, get_login_url, get_metadata.
    required_cases env; rewrite ?Hid, ?Hsso, ?Hcert, ?Hbase in Hf; simpl in Hf;
      try discriminate; injection Hf as <-;
      (eexists; split; [reflexivity|]; simpl; repeat split; reflexivity).
  - intros Hn. unfold first_missing, required_fields, missing in Hn. simpl in Hn.
    required_cases env; rewrite ?Hid, ?Hsso, ?Hcert, ?Hbase in Hn; simpl in Hn;
      try discriminate.
    eexists; split; [reflexivity|]. simpl. exact Ecert.
Qed.

Lemma missing_required_field_raises_witness :
  (exists e, _get_saml_settings env_without_idp_entity_id dummy_request_data
             = ([], inl (ProxyExn e)) /\
     exc_code e = 500 /\ exc_param e = "SAML_IDP_ENTITY_ID") /\
  (exists st, outcome (_get_saml_settings mock_saml_env_vars dummy_request_data) = inr st).
Proof.
  split.
  - destruct (proj1 (missing_required_field_raises env_without_idp_entity_id
                       dummy_request_data) "SAML_IDP_ENTITY_ID" eq_refl)
      as (e & He & Hc & _ & Hp & _).
    exists e. auto.
  - destruct (proj2 (missing_required_field_raises mock_saml_env_vars
                       dummy_request_data) eq_refl) as (st & Hst & _).
    exists st. exact Hst.
Defined.

(** C2, as stated, fails: a certificate text that no PEM decoder accepts is
    taken as it is, and settings construction succeeds. *)
Lemma unparsable_certificate_accepted :
  pem_text "<not a certificate>" = false /\
  exists st,
    outcome (_get_saml_settings
               (<["SAML_IDP_X509_CERT" := "<not a certificate>"]> mock_saml_env_vars)
               dummy_request_data) = inr st /\
    idp_x509cert (idp st) = "<not a certificate>".
Proof.
  split; [reflexivity|]. eexists. split; [vm_compute; reflexivity | reflexivity].
Qed.

(** What [_get_saml_settings] returns when it returns: the projections the
    properties below speak of, in terms of the environment. *)
Lemma settings_fields env rd st :
  outcome (_get_saml_settings env rd) = inr st ->
  exists base,
    env !! "PROXY_BASE_URL" = Some base /\ base <> "" /\
    sp_privateKey (sp st) = getenv_default env "SAML_SP_PRIVATE_KEY" "" /\
    sp_x509cert (sp st) = getenv_default env "SAML_SP_X509_CERT" "" /\
    authnRequestsSigned (security st) = bool_ (getenv_default env "SAML_SP_PRIVATE_KEY" "") /\
    sp_NameIDFormat (sp st) =
      getenv_default env "SAML_NAME_ID_FORMAT"
        "urn:oasis:names:tc:SAML:1.1:nameid-format:emailAddress" /\
    url (sp_assertionConsumerService (sp st)) =
      base +:+ getenv_default env "SAML_ACS_PATH" "/sso/saml/acs" /\
    signatureAlgorithm (security st) = "http://www.w3.org/2001/04/xmldsig-more#rsa-sha256" /\
    digestAlgorithm (security st) = "http://www.w3.org/2001/04/xmlenc#sha256".
Proof.
  required_cases env; intros H; try discriminate.
  injection H as <-. exists vbase. simpl. repeat split; assumption.
Qed.

Lemma getenv_default_nonempty env name :
  getenv_default env name "" <> "" <-> nonempty env name.
Proof.
  unfold getenv_default, nonempty. destruct (env !! name) as [v|]; split.
  - intros H. exists v. auto.
  - intros (w & Hw & Hne). congruence.
  - congruence.
  - intros (w & Hw & _). discriminate.
Qed.

(** C4, amended.  In the settings of every accepted configuration the SP
    private key and the SP certificate are the values of
    SAML_SP_PRIVATE_KEY and SAML_SP_X509_CERT, each empty when its variable
    is unset; so with a private key present, a certificate is present
    exactly when SAML_SP_X509_CERT is set to a non-empty value.  Nothing
    relates the two. *)
Theorem sp_key_and_certificate_independent
    (env : gmap string string) (rd : RequestData) (st : SamlSettings) :
  outcome (_get_saml_settings env rd) = inr st ->
  sp_privateKey (sp st) = getenv_default env "SAML_SP_PRIVATE_KEY" "" /\
  sp_x509cert (sp st) = getenv_default env "SAML_SP_X509_CERT" "" /\
  (sp_privateKey (sp st) <> "" ->
     (sp_x509cert (sp st) <> "" <-> nonempty env "SAML_SP_X509_CERT")).
Proof.
  intros H. destruct (settings_fields env rd st H) as (base & _ & _ & Hk & Hc & _).
  repeat split; try assumption; rewrite Hc; apply getenv_default_nonempty.
Qed.

Lemma sp_key_and_certificate_independent_witness :
  exists st,
    outcome (_get_saml_settings env_key_without_certificate dummy_request_data) = inr st /\
    sp_privateKey (sp st) = "MIIEvQIBADANBgkqhkiG9w0BAQEFAASC" /\
    sp_x509cert (sp st) = "".
Proof.
  destruct (_get_saml_settings env_key_without_certificate dummy_request_data)
    as [l [e|st]] eqn:E; [vm_compute in E; discriminate|].
  exists st. split; [reflexivity|].
  assert (Hout : outcome (_get_saml_settings env_key_without_certificate dummy_request_data)
                 = inr st) by (rewrite E; reflexivity).
  destruct (sp_key_and_certificate_independent _ _ _ Hout) as (Hk & Hc & _).
  rewrite Hk, Hc. split; reflexivity.
Defined.

(** C4, as stated, fails: a private key without a certificate is accepted,
    and the settings then hold a key and an empty certificate. *)
Lemma private_key_without_certificate_accepted :
  exists st,
    outcome (_get_saml_settings env_key_without_certificate dummy_request_data) = inr st /\
    sp_privateKey (sp st) <> "" /\ sp_x509cert (sp st) = "".
Proof.
  eexists. split; [vm_compute; reflexivity|]. split; [discriminate | reflexivity].
Qed.

(** C5.  In the settings of every accepted configuration, signing of
    authentication requests is on if and only if SAML_SP_PRIVATE_KEY is set
    to a non-empty value. *)
Theorem signing_iff_private_key
    (env : gmap string string) (rd : RequestData) (st : SamlSettings) :
  outcome (_get_saml_settings env rd) = inr st ->
  (authnRequestsSigned (security st) = true <-> nonempty env "SAML_SP_PRIVATE_KEY").
Proof.
  intros H. destruct (settings_fields env rd st H) as (base & _ & _ & _ & _ & Hs & _).
  rewrite Hs. unfold bool_. rewrite truthy_str_nonempty. apply getenv_default_nonempty.
Qed.

Lemma signing_iff_private_key_witness :
  exists st,
    outcome (_get_saml_settings env_key_without_certificate dummy_request_data) = inr st /\
    (authnRequestsSigned (security st) = true <->
     nonempty env_key_without_certificate "SAML_SP_PRIVATE_KEY").
Proof.
  destruct (_get_saml_settings env_key_without_certificate dummy_request_data)
    as [l [e|st]] eqn:E; [vm_compute in E; discriminate|].
  exists st. split; [reflexivity|].
  apply (signing_iff_private_key env_key_without_certificate dummy_request_data st).
  rewrite E. reflexivity.
Defined.

(** C8.  In the settings of every accepted configuration: with
    SAML_NAME_ID_FORMAT unset the NameID format is the email-address URN;
    with SAML_ACS_PATH unset the assertion consumer service URL is the proxy
    base URL followed by /sso/saml/acs; the signature algorithm is
    RSA-SHA256 and the digest algorithm is SHA-256. *)
Theorem settings_defaults
    (env : gmap string string) (rd : RequestData) (st : SamlSettings) :
  outcome (_get_saml_settings env rd) = inr st ->
  (env !! "SAML_NAME_ID_FORMAT" = None ->
     sp_NameIDFormat (sp st) = "urn:oasis:names:tc:SAML:1.1:nameid-format:emailAddress") /\
  (env !! "SAML_ACS_PATH" = None ->
     exists base, env !! "PROXY_BASE_URL" = Some base /\
       url (sp_assertionConsumerService (sp st)) = base +:+ "/sso/saml/acs") /\
  signatureAlgorithm (security st) = "http://www.w3.org/2001/04/xmldsig-more#rsa-sha256" /\
  digestAlgorithm (security st) = "http://www.w3.org/2001/04/xmlenc#sha256".
Proof.
  intros H.
  destruct (settings_fields env rd st H)
    as (base & Hb & _ & _ & _ & _ & Hn & Ha & Hsig & Hdig).
  repeat split; try assumption.
  - intros Hnone. rewrite Hn. unfold getenv_default. now rewrite Hnone.
  - intros Hnone. exists base. split; [assumption|].
    rewrite Ha. unfold getenv_default. now rewrite Hnone.
Qed.

Lemma settings_defaults_witness :
  exists st,
    outcome (_get_saml_settings mock_saml_env_vars dummy_request_data) = inr st /\
    sp_NameIDFormat (sp st) = "urn:oasis:names:tc:SAML:1.1:nameid-format:emailAddress" /\
    signatureAlgorithm (security st) = "http://www.w3.org/2001/04/xmldsig-more#rsa-sha256" /\
    digestAlgorithm (security st) = "http://www.w3.org/2001/04/xmlenc#sha256".
Proof.
  destruct (_get_saml_settings mock_saml_env_vars dummy_request_data)
    as [l [e|st]] eqn:E; [vm_compute in E; discriminate|].
  exists st. split; [reflexivity|].
  assert (Hout : outcome (_get_saml_settings mock_saml_env_vars dummy_request_data) = inr st)
    by (rewrite E; reflexivity).
  destruct (settings_defaults _ _ _ Hout) as (Hn & _ & Hsig & Hdig).
  split; [apply Hn; reflexivity | split; assumption].
Defined.

(** C10.  [should_use_saml_handler] is true if and only if
    SAML_IDP_ENTITY_ID, SAML_IDP_SSO_URL and SAML_IDP_X509_CERT are all set
    to non-empty values; PROXY_BASE_URL is not looked at, and there is an
    environment for which it is true while settings construction raises the
    code 500 exception for PROXY_BASE_URL. *)
Theorem should_use_saml_handler_spec :
  (forall env : gmap string string,
     should_use_saml_handler env = true <->
     nonempty env "SAML_IDP_ENTITY_ID" /\ nonempty env "SAML_IDP_SSO_URL" /\
     nonempty env "SAML_IDP_X509_CERT") /\
  (forall (env : gmap string string) (v : string),
     should_use_saml_handler (<["PROXY_BASE_URL" := v]> env) = should_use_saml_handler env) /\
  (exists env : gmap string string,
     should_use_saml_handler env = true /\
     forall rd, exists e,
       _get_saml_settings env rd = ([], inl (ProxyExn e)) /\
       exc_param e = "PROXY_BASE_URL" /\ exc_code e = 500).
Proof.
  split; [|split].
  - intros env. rewrite <- !truthy_nonempty. unfold should_use_saml_handler, Py.and_.
    destruct (Py.truthy (getenv env "SAML_IDP_ENTITY_ID")) eqn:H1;
      [destruct (Py.truthy (getenv env "SAML_IDP_SSO_URL")) eqn:H2|];
      rewrite ?H1, ?H2; intuition congruence.
  - intros env v. unfold should_use_saml_handler, getenv.
    rewrite !lookup_insert_ne by discriminate. reflexivity.
  - exists (delete "PROXY_BASE_URL" mock_saml_env_vars). split; [reflexivity|].
    intros rd. eexists. split; [reflexivity|]. split; reflexivity.
Qed.

(* ===================================================================== *)
(** ** Mapping attributes to the identity record *)
(* ===================================================================== *)

Lemma usable_truthy v : usable v = Py.truthy v.
Proof. destruct v as [[|c s]|]; reflexivity. Qed.

(** The guard of [get_attr_value] keeps the indexing in range: the closure
    returns the first value or [None], logs nothing and raises nothing. *)
Lemma get_attr_value_first_value attributes name :
  get_attr_value attributes name = ret (first_value attributes name).
Proof.
  unfold get_attr_value, first_value.
  destruct attributes as [[|kv d]|]; try reflexivity.
  cbn -[dict_get].
  destruct (dict_get (kv :: d) name) as [|x l]; reflexivity.
Qed.

Lemma bind_ret {A B} (a : A) (k : A -> M B) : bind (ret a) k = k a.
Proof. unfold bind, ret. destruct (k a); reflexivity. Qed.

Lemma identity_arguments_identity_of env attributes name_id :
  identity_arguments env attributes name_id = ret (identity_of env attributes name_id).
Proof.
  unfold identity_arguments, identity_of. rewrite !get_attr_value_first_value.
  cbn [bind ret fst snd app]. rewrite !usable_truthy. unfold Py.or_.
  destruct (first_value attributes
              (getenv_default env "SAML_USER_DISPLAY_NAME_ATTRIBUTE" "displayName"))
    as [[|c s]|];
  destruct (first_value attributes
              (getenv_default env "SAML_USER_FIRST_NAME_ATTRIBUTE" "firstName"))
    as [[|c1 s1]|];
  destruct (first_value attributes
              (getenv_default env "SAML_USER_LAST_NAME_ATTRIBUTE" "lastName"))
    as [[|c2 s2]|]; reflexivity.
Qed.

Lemma map_identity_identity_of lib env attributes name_id :
  map_identity lib env attributes name_id
  = new_CustomOpenID lib (identity_of env attributes name_id).
Proof.
  unfold map_identity. rewrite identity_arguments_identity_of. apply bind_ret.
Qed.

(** C3, amended.  The mapping step calls [CustomOpenID] with the keyword
    arguments [identity_of]: each of id, email, first name, last name and
    display name is looked up by its configured attribute name and the
    first value is taken; id and email fall back to NameID when that value
    is missing or is the empty string; the display name, when missing or
    empty, is first, a space and last if both names are non-empty, and the
    email otherwise.  What the step returns is what the constructor makes
    of these arguments.  With the default attribute names, the attributes
    email [a@b.com], firstName [A], lastName [B] give the arguments id and
    email a@b.com, first A, last B and display A B, whatever the NameID,
    and under the sample constructor the record with these fields. *)
Theorem map_identity_spec :
  (forall (lib : Imports) (env : gmap string string) (attributes : option Attributes)
          (name_id : option string),
     identity_arguments env attributes name_id
     = ([], inr (identity_of env attributes name_id)) /\
     map_identity lib env attributes name_id
     = new_CustomOpenID lib (identity_of env attributes name_id)) /\
  (forall name_id : option string,
     identity_arguments ∅
       (Some [("email", ["a@b.com"]); ("firstName", ["A"]); ("lastName", ["B"])])
       name_id
     = ([], inr {| id := Some "a@b.com"; email := Some "a@b.com";
                   first_name := Some "A"; last_name := Some "B";
                   display_name := Some "A B";
                   provider := Some "saml"; team_ids := [] |}) /\
     outcome (map_identity (mock_lib mock_success_auth) ∅
                (Some [("email", ["a@b.com"]); ("firstName", ["A"]); ("lastName", ["B"])])
                name_id)
     = inr {| id := Some "a@b.com"; email := Some "a@b.com";
              first_name := Some "A"; last_name := Some "B";
              display_name := Some "A B";
              provider := Some "saml"; team_ids := [] |}).
Proof.
  split.
  - intros. split; [apply identity_arguments_identity_of | apply map_identity_identity_of].
  - intros name_id. rewrite map_identity_identity_of, identity_arguments_identity_of.
    split; reflexivity.
Qed.

(** C3, as stated, fails: with the email attribute present and its first
    value the empty string, the id and email handed to [CustomOpenID], and
    those of the record built, are the NameID, not that first value; the
    display name is the NameID as well. *)
Lemma empty_first_value_falls_back :
  first_value (Some [("email", [""])]) "email" = Some "" /\
  identity_arguments ∅ (Some [("email", [""])]) (Some "nameid@example.com")
  = ([], inr {| id := Some "nameid@example.com"; email := Some "nameid@example.com";
                first_name := None; last_name := None;
                display_name := Some "nameid@example.com";
                provider := Some "saml"; team_ids := [] |}) /\
  outcome (map_identity (mock_lib mock_success_auth) ∅ (Some [("email", [""])])
             (Some "nameid@example.com"))
  = inr {| id := Some "nameid@example.com"; email := Some "nameid@example.com";
           first_name := None; last_name := None;
           display_name := Some "nameid@example.com";
           provider := Some "saml"; team_ids := [] |}.
Proof. repeat split; reflexivity. Qed.




(* ===================================================================== *)
(** ** Running the monad *)
(* ===================================================================== *)

Lemma outcome_bind {A B} (m : M A) (k : A -> M B) :
  outcome (bind m k) = match outcome m with
                       | inl e => inl e
                       | inr a => outcome (k a)
                       end.
Proof. destruct m as [l [e|a]]; simpl; [reflexivity|]. destruct (k a); reflexivity. Qed.

Lemma logs_bind {A B} (m : M A) (k : A -> M B) :
  logs (bind m k) = (logs m ++ match outcome m with
                               | inl _ => []
                               | inr a => logs (k a)
                               end)%list.
Proof.
  destruct m as [l [e|a]]; simpl; [now rewrite app_nil_r|]. destruct (k a); reflexivity.
Qed.

Lemma outcome_lift {A} (r : string + A) :
  outcome (lift r) = match r with
                     | inl msg => inl (LibraryExn msg)
                     | inr a => inr a
                     end.
Proof. destruct r; reflexivity. Qed.

Lemma logs_lift {A} (r : string + A) : logs (lift r) = [].
Proof. destruct r; reflexivity. Qed.

(* ===================================================================== *)
(** ** Processing the response of the IdP *)
(* ===================================================================== *)

Lemma settings_verification_policy env rd st :
  outcome (_get_saml_settings env rd) = inr st ->
  strict st = true /\ wantAssertionsSigned (security st) = true /\
  env !! "SAML_IDP_X509_CERT" = Some (idp_x509cert (idp st)).
Proof.
  required_cases env; intros H; try discriminate.
  injection H as <-. simpl. repeat split. exact Ecert.
Qed.

(** C1, amended.  The handler has the library process every response
    under strict settings that want signed assertions and carry the
    configured IdP certificate.  A response is rejected when the library
    then lists errors or reports the user as not authenticated; that is how
    a signature that does not verify reaches the handler.  For every
    rejected response [process_saml_response] raises
    [ProxyException(message=..., type=auth_error, param=saml_response,
    code=401)], the message being the fixed prefix followed by the reason
    the library gives (or by User not authenticated); the error has no
    failure subtype of its own, and the HTTP code that surfaces is the one
    the constructor of [ProxyException] stores for these arguments.  An
    identity record is returned only when the library lists no error and
    reports the user as authenticated. *)
Theorem rejected_response_raises_auth_error
    (lib : Imports) (env : gmap string string) (request : Request) :
  (forall st auth,
     outcome (_get_saml_settings env (response_request_data request)) = inr st ->
     Saml2_Auth_process_response lib (response_request_data request) st = inr auth ->
     get_errors auth <> [] \/ is_authenticated auth = false ->
     strict st = true /\ wantAssertionsSigned (security st) = true /\
     env !! "SAML_IDP_X509_CERT" = Some (idp_x509cert (idp st)) /\
     outcome (process_saml_response lib env request)
     = inl (ProxyExn (mkProxyException
                        ("SAML authentication failed: " +:+
                         (if Py.truthy_list (get_errors auth)
                          then Py.str_opt (get_last_error_reason auth)
                          else "User not authenticated"))
                        auth_error "saml_response" 401)) /\
     surfaced_code lib (process_saml_response lib env request)
     = Some (ProxyException_code lib
               (mkProxyException
                  ("SAML authentication failed: " +:+
                   (if Py.truthy_list (get_errors auth)
                    then Py.str_opt (get_last_error_reason auth)
                    else "User not authenticated"))
                  auth_error "saml_response" 401))) /\
  (forall r,
     outcome (process_saml_response lib env request) = inr r ->
     exists st auth,
       outcome (_get_saml_settings env (response_request_data request)) = inr st /\
       Saml2_Auth_process_response lib (response_request_data request) st = inr auth /\
       get_errors auth = [] /\ is_authenticated auth = true).
Proof.
  unfold surfaced_code, process_saml_response. cbv zeta.
  change (set_post_data (_prepare_request_from_fastapi request) (dict (form request)))
    with (response_request_data request).
  split.
  - intros st auth Hst Hauth Hrej.
    destruct (settings_verification_policy _ _ _ Hst) as (Hstrict & Hsigned & Hcert).
    rewrite outcome_bind, Hst, outcome_bind, outcome_lift, Hauth.
    destruct (get_errors auth) as [|err errs] eqn:Herr.
    + destruct Hrej as [Hrej|Hrej]; [congruence|]. rewrite Hrej.
      repeat split; assumption.
    + repeat split; assumption.
  - intros r. rewrite outcome_bind.
    destruct (outcome (_get_saml_settings env (response_request_data request)))
      as [e|st] eqn:Hst; [discriminate|].
    rewrite outcome_bind, outcome_lift.
    destruct (Saml2_Auth_process_response lib (response_request_data request) st)
      as [msg|auth] eqn:Hlib; [discriminate|].
    destruct (get_errors auth) as [|err errs] eqn:Herr; [|discriminate].
    destruct (is_authenticated auth) eqn:Hauth; [|discriminate].
    intros _. exists st, auth. repeat split; assumption.
Qed.

Lemma rejected_response_raises_auth_error_witness :
  outcome (process_saml_response (mock_lib bad_signature_auth) mock_saml_env_vars
             mock_request)
  = inl (ProxyExn (mkProxyException
                     "SAML authentication failed: Signature validation failed. SAML Response rejected"
                     auth_error "saml_response" 401)) /\
  surfaced_code (mock_lib bad_signature_auth)
    (process_saml_response (mock_lib bad_signature_auth) mock_saml_env_vars mock_request)
  = Some "401".
Proof.
  destruct (_get_saml_settings mock_saml_env_vars (response_request_data mock_request))
    as [l [x|st]] eqn:E; [vm_compute in E; discriminate|].
  assert (Hst : outcome (_get_saml_settings mock_saml_env_vars
                           (response_request_data mock_request)) = inr st)
    by (rewrite E; reflexivity).
  destruct (proj1 (rejected_response_raises_auth_error (mock_lib bad_signature_auth)
                     mock_saml_env_vars mock_request)
              st bad_signature_auth Hst eq_refl (or_intror eq_refl))
    as (_ & _ & _ & Hout & Hcode).
  split; [exact Hout | rewrite Hcode; reflexivity].
Defined.

(** C1, as stated, fails, twice over.  For a response whose signature does
    not verify the error raised is the general [auth_error], as for any
    other rejection: neither its type nor its message names
    SignatureInvalid.  And a rejected response need not surface as 401: the
    reason the library gives can hold a text of the sender, and for the
    status message No deployments available the code the constructor of
    [ProxyException] stores is 429. *)
Lemma rejected_signature_is_plain_auth_error :
  outcome (process_saml_response (mock_lib bad_signature_auth) mock_saml_env_vars
             mock_request)
  = inl (ProxyExn
           {| exc_message :=
                "SAML authentication failed: Signature validation failed. SAML Response rejected";
              exc_type := "auth_error";
              exc_param := "saml_response";
              exc_code := 401 |}) /\
  names_subtype "SignatureInvalid"
    {| exc_message :=
         "SAML authentication failed: Signature validation failed. SAML Response rejected";
       exc_type := "auth_error";
       exc_param := "saml_response";
       exc_code := 401 |} = false /\
  surfaced_code (mock_lib forged_status_auth)
    (process_saml_response (mock_lib forged_status_auth) mock_saml_env_vars mock_request)
  = Some "429".
Proof. repeat split; vm_compute; reflexivity. Qed.

(* ===================================================================== *)
(** ** Service provider metadata *)
(* ===================================================================== *)

(** C6.  [get_metadata] returns a metadata text exactly when the settings
    are built, the library generates that text, and [validate_metadata]
    reports an empty error list for it.  When validation reports any error
    the method raises a [ProxyException] with param saml_metadata and code
    500 whose message lists the errors, and returns no metadata. *)
Theorem get_metadata_self_validates (lib : Imports) (env : gmap string string) :
  (forall metadata,
     outcome (get_metadata lib env) = inr metadata <->
     exists st,
       outcome (_get_saml_settings env (metadata_request_data env)) = inr st /\
       Saml2_Settings_get_sp_metadata lib st = inr metadata /\
       Saml2_Settings_validate_metadata lib st metadata = inr []) /\
  (forall st metadata errors,
     outcome (_get_saml_settings env (metadata_request_data env)) = inr st ->
     Saml2_Settings_get_sp_metadata lib st = inr metadata ->
     Saml2_Settings_validate_metadata lib st metadata = inr errors ->
     errors <> [] ->
     outcome (get_metadata lib env)
     = inl (ProxyExn (mkProxyException
                        ("SAML metadata validation failed: " +:+ Py.join ", " errors)
                        auth_error "saml_metadata" 500))).
Proof.
  unfold get_metadata. cbv zeta. split.
  - intros metadata. rewrite outcome_bind. split.
    + destruct (outcome (_get_saml_settings env (metadata_request_data env)))
        as [e|st] eqn:Hst; [discriminate|].
      rewrite outcome_bind, outcome_lift.
      destruct (Saml2_Settings_get_sp_metadata lib st) as [msg|md] eqn:Hmd; [discriminate|].
      rewrite outcome_bind, outcome_lift.
      destruct (Saml2_Settings_validate_metadata lib st md) as [msg|errs] eqn:Hv;
        [discriminate|].
      destruct errs as [|err errs]; [|discriminate].
      simpl. intros [= <-]. exists st. repeat split; assumption.
    + intros (st & Hst & Hmd & Hv).
      rewrite Hst, outcome_bind, outcome_lift, Hmd, outcome_bind, outcome_lift, Hv.
      reflexivity.
  - intros st metadata errors Hst Hmd Hv Hne.
    rewrite outcome_bind, Hst, outcome_bind, outcome_lift, Hmd, outcome_bind,
      outcome_lift, Hv.
    destruct errors as [|err errs]; [congruence|]. reflexivity.
Qed.

Lemma get_metadata_self_validates_witness :
  outcome (get_metadata (mock_lib mock_success_auth) mock_saml_env_vars)
  = inr "<md:EntityDescriptor>...</md:EntityDescriptor>" /\
  outcome (get_metadata invalid_metadata_lib mock_saml_env_vars)
  = inl (ProxyExn (mkProxyException
                     "SAML metadata validation failed: noEntityDescriptor_xml, sp_acs_not_found"
                     auth_error "saml_metadata" 500)).
Proof.
  destruct (_get_saml_settings mock_saml_env_vars (metadata_request_data mock_saml_env_vars))
    as [l [x|st]] eqn:E; [vm_compute in E; discriminate|].
  assert (Hst : outcome (_get_saml_settings mock_saml_env_vars
                           (metadata_request_data mock_saml_env_vars)) = inr st)
    by (rewrite E; reflexivity).
  split.
  - apply (proj1 (get_metadata_self_validates (mock_lib mock_success_auth)
                    mock_saml_env_vars)).
    exists st. repeat split. exact Hst.
  - apply (proj2 (get_metadata_self_validates invalid_metadata_lib mock_saml_env_vars)
             st "<md:EntityDescriptor/>" ["noEntityDescriptor_xml"; "sp_acs_not_found"]
             Hst eq_refl eq_refl).
    discriminate.
Defined.

(* ===================================================================== *)
(** ** What the log records depend on *)
(* ===================================================================== *)

Lemma low_equiv_lookup env1 env2 name :
  low_equiv env1 env2 ->
  name <> "SAML_SP_PRIVATE_KEY" -> name <> "SAML_SP_X509_CERT" ->
  name <> "SAML_IDP_X509_CERT" ->
  env1 !! name = env2 !! name.
Proof.
  intros Heq H1 H2 H3. unfold low_equiv, redact in Heq.
  apply (f_equal (fun m : gmap string string => m !! name)) in Heq.
  rewrite !lookup_delete_ne in Heq by congruence. exact Heq.
Qed.

Lemma low_equiv_getenv_default env1 env2 name dflt :
  low_equiv env1 env2 ->
  name <> "SAML_SP_PRIVATE_KEY" -> name <> "SAML_SP_X509_CERT" ->
  name <> "SAML_IDP_X509_CERT" ->
  getenv_default env1 name dflt = getenv_default env2 name dflt.
Proof.
  intros Heq H1 H2 H3. unfold getenv_default.
  now rewrite (low_equiv_lookup env1 env2 name Heq H1 H2 H3).
Qed.

Lemma settings_logs env rd :
  logs (_get_saml_settings env rd) =
  match first_missing env with
  | Some _ => []
  | None => [settings_built_record env]
  end.
Proof.
  unfold first_missing, required_fields, missing, settings_built_record. simpl.
  required_cases env; rewrite ?Hid, ?Hsso, ?Hcert, ?Hbase; simpl; try reflexivity.
  rewrite Esso, Ebase. reflexivity.
Qed.

Lemma low_equiv_first_missing env1 env2 :
  low_equiv env1 env2 ->
  Py.truthy (getenv env1 "SAML_IDP_X509_CERT") = Py.truthy (getenv env2 "SAML_IDP_X509_CERT") ->
  first_missing env1 = first_missing env2.
Proof.
  intros Heq Hcert. unfold first_missing, required_fields, missing. simpl.
  unfold getenv in *.
  rewrite (low_equiv_lookup env1 env2 "SAML_IDP_ENTITY_ID" Heq) by discriminate.
  rewrite (low_equiv_lookup env1 env2 "SAML_IDP_SSO_URL" Heq) by discriminate.
  rewrite (low_equiv_lookup env1 env2 "PROXY_BASE_URL" Heq) by discriminate.
  rewrite Hcert. reflexivity.
Qed.

Lemma low_equiv_settings_built_record env1 env2 :
  low_equiv env1 env2 -> settings_built_record env1 = settings_built_record env2.
Proof.
  intros Heq. unfold settings_built_record, getenv.
  rewrite (low_equiv_lookup env1 env2 "SAML_IDP_SSO_URL" Heq) by discriminate.
  rewrite (low_equiv_lookup env1 env2 "PROXY_BASE_URL" Heq) by discriminate.
  now rewrite (low_equiv_getenv_default env1 env2 "SAML_ENTITY_ID" _ Heq) by discriminate.
Qed.

Lemma low_equiv_identity_arguments env1 env2 attributes name_id :
  low_equiv env1 env2 ->
  identity_arguments env1 attributes name_id = identity_arguments env2 attributes name_id.
Proof.
  intros Heq. rewrite !identity_arguments_identity_of. unfold identity_of.
  rewrite (low_equiv_getenv_default env1 env2 "SAML_USER_ID_ATTRIBUTE" _ Heq) by discriminate.
  rewrite (low_equiv_getenv_default env1 env2 "SAML_USER_EMAIL_ATTRIBUTE" _ Heq)
    by discriminate.
  rewrite (low_equiv_getenv_default env1 env2 "SAML_USER_FIRST_NAME_ATTRIBUTE" _ Heq)
    by discriminate.
  rewrite (low_equiv_getenv_default env1 env2 "SAML_USER_LAST_NAME_ATTRIBUTE" _ Heq)
    by discriminate.
  rewrite (low_equiv_getenv_default env1 env2 "SAML_USER_DISPLAY_NAME_ATTRIBUTE" _ Heq)
    by discriminate.
  reflexivity.
Qed.

(** C9, amended.  Take two environments that differ at most in the values
    of SAML_SP_PRIVATE_KEY, SAML_SP_X509_CERT and SAML_IDP_X509_CERT, with
    the IdP certificate empty or unset in both or in neither.  Settings
    construction logs the same records in both; and so does response
    processing, provided the library comes back with the same result for the
    two settings.  The records are built from the SP entity id, the IdP SSO
    URL, what the library reports, the NameID and the attribute names, never
    from the three values. *)
Theorem logs_independent_of_secrets
    (lib : Imports) (env1 env2 : gmap string string) (request : Request) :
  low_equiv env1 env2 ->
  Py.truthy (getenv env1 "SAML_IDP_X509_CERT") = Py.truthy (getenv env2 "SAML_IDP_X509_CERT") ->
  (forall rd, logs (_get_saml_settings env1 rd) = logs (_get_saml_settings env2 rd)) /\
  ((forall st1 st2,
      outcome (_get_saml_settings env1 (response_request_data request)) = inr st1 ->
      outcome (_get_saml_settings env2 (response_request_data request)) = inr st2 ->
      Saml2_Auth_process_response lib (response_request_data request) st1
      = Saml2_Auth_process_response lib (response_request_data request) st2) ->
   logs (process_saml_response lib env1 request)
   = logs (process_saml_response lib env2 request)).
Proof.
  intros Heq Hcert.
  assert (Hlogs : forall rd,
             logs (_get_saml_settings env1 rd) = logs (_get_saml_settings env2 rd)).
  { intros rd. rewrite !settings_logs, (low_equiv_first_missing _ _ Heq Hcert).
    now rewrite (low_equiv_settings_built_record _ _ Heq). }
  split; [exact Hlogs|].
  intros Hlib. unfold process_saml_response. cbv zeta.
  change (set_post_data (_prepare_request_from_fastapi request) (dict (form request)))
    with (response_request_data request).
  rewrite !logs_bind, Hlogs. f_equal.
  pose proof (settings_accepted_iff env1 (response_request_data request)) as A1.
  pose proof (settings_accepted_iff env2 (response_request_data request)) as A2.
  rewrite (low_equiv_first_missing _ _ Heq Hcert) in A1.
  destruct (outcome (_get_saml_settings env1 (response_request_data request)))
    as [e1|st1] eqn:H1;
  destruct (outcome (_get_saml_settings env2 (response_request_data request)))
    as [e2|st2] eqn:H2; try reflexivity.
  - exfalso. destruct (proj2 A1 (proj1 A2 (ex_intro _ st2 eq_refl))); discriminate.
  - exfalso. destruct (proj2 A2 (proj1 A1 (ex_intro _ st1 eq_refl))); discriminate.
  - rewrite !logs_bind, !logs_lift, !outcome_lift, (Hlib st1 st2 eq_refl eq_refl).
    destruct (Saml2_Auth_process_response lib (response_request_data request) st2)
      as [msg|auth]; [reflexivity|].
    destruct (Py.truthy_list (get_errors auth)); [reflexivity|].
    destruct (negb (is_authenticated auth)); [reflexivity|].
    rewrite (low_equiv_identity_arguments env1 env2 _ _ Heq). reflexivity.
Qed.

Lemma logs_independent_of_secrets_witness :
  logs (_get_saml_settings env_secrets_a dummy_request_data)
  = logs (_get_saml_settings env_secrets_b dummy_request_data) /\
  logs (process_saml_response (mock_lib mock_success_auth) env_secrets_a mock_request)
  = logs (process_saml_response (mock_lib mock_success_auth) env_secrets_b mock_request).
Proof.
  assert (Heq : low_equiv env_secrets_a env_secrets_b) by (vm_compute; reflexivity).
  destruct (logs_independent_of_secrets (mock_lib mock_success_auth)
              env_secrets_a env_secrets_b mock_request Heq eq_refl) as (Hs & Hp).
  split; [apply Hs | apply Hp; reflexivity].
Defined.

(** C9, as stated, fails: two environments that differ only in the value of
    SAML_IDP_X509_CERT, empty in the second, do not log the same records.
    The first run logs that the settings were built; the second raises
    before anything is logged. *)
Lemma empty_certificate_changes_logs :
  low_equiv mock_saml_env_vars (<["SAML_IDP_X509_CERT" := ""]> mock_saml_env_vars) /\
  logs (_get_saml_settings mock_saml_env_vars dummy_request_data)
  = [mkLog DEBUG
       "SAML settings built - SP Entity ID: https://proxy.example.com/sso/saml/metadata, IdP SSO URL: https://idp.example.com/sso"] /\
  logs (_get_saml_settings (<["SAML_IDP_X509_CERT" := ""]> mock_saml_env_vars)
          dummy_request_data) = [] /\
  logs (process_saml_response (mock_lib mock_success_auth) mock_saml_env_vars mock_request)
  <> logs (process_saml_response (mock_lib mock_success_auth)
             (<["SAML_IDP_X509_CERT" := ""]> mock_saml_env_vars) mock_request).
Proof.
  split; [vm_compute; reflexivity|].
  split; [vm_compute; reflexivity|].
  split; [vm_compute; reflexivity|].
  vm_compute. discriminate.
Qed.

(** The proviso on the library in the amended C9 cannot be dropped: under
    two non-empty certificates, one of which is the one the response
    verifies against, the records of response processing differ. *)
Lemma library_verdict_changes_logs :
  low_equiv mock_saml_env_vars env_secrets_b /\
  map log_msg (logs (process_saml_response
                       (pinned_lib "MIICXDCCAcWgAwIBAgIBADANBgkqhkiG9w0BAQ0FADBL")
                       mock_saml_env_vars mock_request))
  = ["SAML settings built - SP Entity ID: https://proxy.example.com/sso/saml/metadata, IdP SSO URL: https://idp.example.com/sso";
     "SAML authentication successful - NameID: user@example.com, Attributes: ['email', 'firstName', 'lastName', 'displayName']";
     "SAML user authenticated - ID: user@example.com, Email: user@example.com"] /\
  map log_msg (logs (process_saml_response
                       (pinned_lib "MIICXDCCAcWgAwIBAgIBADANBgkqhkiG9w0BAQ0FADBL")
                       env_secrets_b mock_request))
  = ["SAML settings built - SP Entity ID: https://proxy.example.com/sso/saml/metadata, IdP SSO URL: https://idp.example.com/sso";
     "SAML authentication failed - Errors: ['invalid_response'], Reason: Signature validation failed. SAML Response rejected"].
Proof.
  split; [vm_compute; reflexivity|]. split; vm_compute; reflexivity.
Qed.

(* ===================================================================== *)
(** ** Beyond the specification: the request dictionary *)
(* ===================================================================== *)

(** X1.  The request dictionary built from a FastAPI request: the https
    flag is on exactly for the scheme https and off otherwise; the port is
    the port of the URL when there is a non-zero one, and otherwise 443 under
    https and 80 under any other scheme, so it is never zero; host, path
    and query string are passed on and the POST data start empty. *)
Theorem prepare_request_scheme_and_port (request : Request) :
  (https (_prepare_request_from_fastapi request) = "on" <-> url_scheme request = "https") /\
  (https (_prepare_request_from_fastapi request) = "off" <-> url_scheme request <> "https") /\
  server_port (_prepare_request_from_fastapi request) <> 0 /\
  (forall p, url_port request = Some p -> p <> 0 ->
     server_port (_prepare_request_from_fastapi request) = p) /\
  (url_port request = None \/ url_port request = Some 0 ->
     server_port (_prepare_request_from_fastapi request)
     = if bool_decide (url_scheme request = "https") then 443 else 80) /\
  http_host (_prepare_request_from_fastapi request) = url_hostname request /\
  script_name (_prepare_request_from_fastapi request) = url_path request /\
  get_data (_prepare_request_from_fastapi request) = dict (query_params request) /\
  post_data (_prepare_request_from_fastapi request) = ∅.
Proof.
  unfold _prepare_request_from_fastapi. simpl.
  repeat split; try (case_bool_decide; congruence).
  - destruct (url_port request) as [p|]; repeat case_bool_decide; congruence || lia.
  - intros p -> Hp. rewrite bool_decide_eq_false_2; auto.
  - intros [-> | ->]; reflexivity.
Qed.

Lemma prepare_request_scheme_and_port_witness :
  server_port (_prepare_request_from_fastapi mock_login_request) = 4000 /\
  https (_prepare_request_from_fastapi mock_login_request) = "off".
Proof.
  destruct (prepare_request_scheme_and_port mock_login_request)
    as (_ & Hoff & _ & Hport & _).
  split; [apply Hport; [reflexivity | discriminate] | apply Hoff; discriminate].
Defined.

Lemma dict_snoc items k v : dict (items ++ [(k, v)]) = <[k:=v]> (dict items).
Proof. unfold dict. rewrite reverse_snoc. reflexivity. Qed.

Lemma dict_lookup_is_Some items k :
  is_Some (dict items !! k) <-> k ∈ items.*1.
Proof.
  unfold dict. split.
  - intros [v Hv]. apply elem_of_list_to_map_2 in Hv.
    apply list_elem_of_fmap. exists (k, v). split; [reflexivity|].
    rewrite elem_of_reverse in Hv. exact Hv.
  - intros Hin. destruct (list_to_map (reverse items) !! k) as [v|] eqn:E; [eauto|].
    apply not_elem_of_list_to_map_2 in E. exfalso. apply E.
    rewrite fmap_reverse, elem_of_reverse. exact Hin.
Qed.

(** X2.  The POST data [process_saml_response] hands to the library map
    a field name to a value exactly when the form has a field of that name;
    when the form ends with a field, that field's value is the one kept for
    its name, whatever was posted under the name before, and the other
    names are as for the form without it.  The rest of the dictionary is as
    [_prepare_request_from_fastapi] built it. *)
Theorem post_data_of_form (request : Request) :
  (forall k, is_Some (post_data (response_request_data request) !! k)
             <-> k ∈ (form request).*1) /\
  (forall items k v, form request = items ++ [(k, v)] ->
     post_data (response_request_data request) !! k = Some v /\
     forall k', k' <> k ->
       post_data (response_request_data request) !! k' = dict items !! k') /\
  https (response_request_data request) = https (_prepare_request_from_fastapi request) /\
  http_host (response_request_data request) = url_hostname request /\
  server_port (response_request_data request)
  = server_port (_prepare_request_from_fastapi request) /\
  script_name (response_request_data request) = url_path request /\
  get_data (response_request_data request) = dict (query_params request).
Proof.
  unfold response_request_data, set_post_data. simpl. split; [|split].
  - intros k. apply dict_lookup_is_Some.
  - intros items k v ->. rewrite dict_snoc. split.
    + apply lookup_insert_eq.
    + intros k' Hne. apply lookup_insert_ne. congruence.
  - repeat split.
Qed.

Lemma post_data_of_form_witness :
  post_data (response_request_data mock_double_post) !! "SAMLResponse" = Some "second".
Proof.
  apply (proj1 (proj1 (proj2 (post_data_of_form mock_double_post))
                  [("SAMLResponse", "first"); ("RelayState", "/ui")]
                  "SAMLResponse" "second" eq_refl)).
Defined.

(* ===================================================================== *)
(** ** Beyond the specification: the settings dictionary *)
(* ===================================================================== *)

(** X3.  Settings construction succeeds exactly when
    [should_use_saml_handler] holds and PROXY_BASE_URL is set to a non-empty
    value: the enabling test and the construction differ in that one
    variable only. *)
Theorem settings_accepted_iff_enabled_and_base_url
    (env : gmap string string) (rd : RequestData) :
  (exists st, outcome (_get_saml_settings env rd) = inr st) <->
  should_use_saml_handler env = true /\ nonempty env "PROXY_BASE_URL".
Proof.
  rewrite settings_accepted_iff, <- truthy_nonempty.
  unfold first_missing, required_fields, missing, should_use_saml_handler, Py.and_. simpl.
  destruct (Py.truthy (getenv env "SAML_IDP_ENTITY_ID")) eqn:H1; simpl;
    [|rewrite ?H1; intuition congruence].
  destruct (Py.truthy (getenv env "SAML_IDP_SSO_URL")) eqn:H2; simpl;
    [|rewrite ?H2; intuition congruence].
  destruct (Py.truthy (getenv env "SAML_IDP_X509_CERT")) eqn:H3; simpl;
    [|intuition congruence].
  destruct (Py.truthy (getenv env "PROXY_BASE_URL")) eqn:H4; simpl;
    intuition congruence.
Qed.

(** X4.  No environment variable changes the validation policy of the
    settings: every accepted configuration is strict, wants signed
    assertions and a NameID, wants no signed messages, no encryption and no
    attribute statement, and asks for the authentication context with
    comparison exact.  The four signing switches (authentication requests,
    logout requests, logout responses, metadata) always have one common
    value. *)
Theorem fixed_security_policy
    (env : gmap string string) (rd : RequestData) (st : SamlSettings) :
  outcome (_get_saml_settings env rd) = inr st ->
  strict st = true /\
  wantAssertionsSigned (security st) = true /\
  wantNameId (security st) = true /\
  wantMessagesSigned (security st) = false /\
  wantAssertionsEncrypted (security st) = false /\
  nameIdEncrypted (security st) = false /\
  wantNameIdEncrypted (security st) = false /\
  wantAttributeStatement (security st) = false /\
  requestedAuthnContext (security st) = true /\
  requestedAuthnContextComparison (security st) = "exact" /\
  logoutRequestSigned (security st) = authnRequestsSigned (security st) /\
  logoutResponseSigned (security st) = authnRequestsSigned (security st) /\
  signMetadata (security st) = authnRequestsSigned (security st).
Proof.
  required_cases env; intros H; try discriminate.
  injection H as <-. simpl. repeat split.
Qed.

Lemma fixed_security_policy_witness :
  exists st,
    outcome (_get_saml_settings env_secrets_a dummy_request_data) = inr st /\
    strict st = true /\ wantAssertionsSigned (security st) = true /\
    signMetadata (security st) = authnRequestsSigned (security st).
Proof.
  destruct (_get_saml_settings env_secrets_a dummy_request_data)
    as [l [e|st]] eqn:E; [vm_compute in E; discriminate|].
  exists st. split; [reflexivity|].
  assert (Hout : outcome (_get_saml_settings env_secrets_a dummy_request_data) = inr st)
    by (rewrite E; reflexivity).
  destruct (fixed_security_policy _ _ _ Hout)
    as (Hs & Hw & _ & _ & _ & _ & _ & _ & _ & _ & _ & _ & Hm).
  repeat split; assumption.
Defined.

(** X5.  The settings of an accepted configuration carry the environment
    unchanged: IdP entity id, SSO URL and certificate are the values of
    their variables, the IdP logout URL is SAML_IDP_SLO_URL or empty; the
    SP entity id is SAML_ENTITY_ID, or the base URL followed by
    /sso/saml/metadata when that is unset; the consumer service URL is the
    base URL followed by SAML_ACS_PATH, joined as they are, under the
    HTTP-POST binding; the SP logout URL is the base URL followed by
    /sso/saml/sls whatever the environment, and the other three endpoints
    use the HTTP-Redirect binding. *)
Theorem settings_carry_environment
    (env : gmap string string) (rd : RequestData) (st : SamlSettings) :
  outcome (_get_saml_settings env rd) = inr st ->
  env !! "SAML_IDP_ENTITY_ID" = Some (idp_entityId (idp st)) /\
  env !! "SAML_IDP_SSO_URL" = Some (url (idp_singleSignOnService (idp st))) /\
  env !! "SAML_IDP_X509_CERT" = Some (idp_x509cert (idp st)) /\
  url (idp_singleLogoutService (idp st)) = getenv_default env "SAML_IDP_SLO_URL" "" /\
  (exists base, env !! "PROXY_BASE_URL" = Some base /\
     sp_entityId (sp st) = getenv_default env "SAML_ENTITY_ID" (base +:+ "/sso/saml/metadata") /\
     url (sp_assertionConsumerService (sp st))
     = base +:+ getenv_default env "SAML_ACS_PATH" "/sso/saml/acs" /\
     url (sp_singleLogoutService (sp st)) = base +:+ "/sso/saml/sls") /\
  binding (sp_assertionConsumerService (sp st)) = HTTP_POST /\
  binding (sp_singleLogoutService (sp st)) = HTTP_Redirect /\
  binding (idp_singleSignOnService (idp st)) = HTTP_Redirect /\
  binding (idp_singleLogoutService (idp st)) = HTTP_Redirect.
Proof.
  required_cases env; intros H; try discriminate.
  injection H as <-. simpl. unfold getenv in *.
  repeat split; try assumption. exists vbase. repeat split; assumption.
Qed.

Lemma settings_carry_environment_witness :
  exists st,
    outcome (_get_saml_settings env_custom_paths dummy_request_data) = inr st /\
    sp_entityId (sp st) = "litellm-proxy" /\
    url (sp_assertionConsumerService (sp st)) = "https://proxy.example.com//custom/acs" /\
    url (sp_singleLogoutService (sp st)) = "https://proxy.example.com//sso/saml/sls".
Proof.
  destruct (_get_saml_settings env_custom_paths dummy_request_data)
    as [l [e|st]] eqn:E; [vm_compute in E; discriminate|].
  exists st. split; [reflexivity|].
  assert (Hout : outcome (_get_saml_settings env_custom_paths dummy_request_data) = inr st)
    by (rewrite E; reflexivity).
  destruct (settings_carry_environment _ _ _ Hout)
    as (_ & _ & _ & _ & (base & Hb & He & Ha & Hl) & _).
  injection Hb as <-. rewrite He, Ha, Hl. repeat split.
Defined.

Lemma lower_ascii_inv c d :
  Py.lower_ascii c = d -> c = d \/ c = ascii_of_nat (nat_of_ascii d - 32).
Proof.
  unfold Py.lower_ascii.
  destruct (Nat.leb 65 (nat_of_ascii c) && Nat.leb (nat_of_ascii c) 90)%bool eqn:E;
    [|auto].
  apply andb_true_iff in E as [E1 E2].
  apply Nat.leb_le in E1. apply Nat.leb_le in E2.
  intros <-. right. rewrite nat_ascii_embedding by lia.
  replace (nat_of_ascii c + 32 - 32)%nat with (nat_of_ascii c) by lia.
  now rewrite ascii_nat_embedding.
Qed.

Lemma lower_true_iff v : Py.lower v = "true" <-> In v true_spellings.
Proof.
  split.
  - destruct v as [|c1 [|c2 [|c3 [|c4 [|c5 v]]]]]; simpl; intros H; try discriminate.
    injection H as H1 H2 H3 H4.
    apply lower_ascii_inv in H1, H2, H3, H4. simpl in H1, H2, H3, H4.
    destruct H1 as [-> | ->], H2 as [-> | ->], H3 as [-> | ->], H4 as [-> | ->];
      unfold true_spellings; simpl; tauto.
  - unfold true_spellings. simpl. intros H.
    repeat (destruct H as [<- | H]; [reflexivity|]). contradiction.
Qed.

(** X6.  The debug switch of the settings is on exactly when SAML_DEBUG is
    set to the word true in any mix of upper and lower case; it is off when
    the variable is unset and for every other value, 1 and yes included. *)
Theorem debug_flag_spellings
    (env : gmap string string) (rd : RequestData) (st : SamlSettings) :
  outcome (_get_saml_settings env rd) = inr st ->
  (debug st = true <-> exists v, env !! "SAML_DEBUG" = Some v /\ In v true_spellings).
Proof.
  required_cases env; intros H; try discriminate.
  injection H as <-. simpl. rewrite bool_decide_eq_true. unfold getenv_default.
  destruct (env !! "SAML_DEBUG") as [v|].
  - rewrite lower_true_iff. split; [eauto|]. intros (w & [= <-] & Hw). exact Hw.
  - split; [discriminate|]. intros (w & Hw & _). discriminate.
Qed.

Lemma debug_flag_spellings_witness :
  exists st,
    outcome (_get_saml_settings (<["SAML_DEBUG" := "True"]> mock_saml_env_vars)
               dummy_request_data) = inr st /\
    debug st = true.
Proof.
  destruct (_get_saml_settings (<["SAML_DEBUG" := "True"]> mock_saml_env_vars)
              dummy_request_data) as [l [e|st]] eqn:E; [vm_compute in E; discriminate|].
  exists st. split; [reflexivity|].
  apply (debug_flag_spellings (<["SAML_DEBUG" := "True"]> mock_saml_env_vars)
           dummy_request_data st).
  - rewrite E. reflexivity.
  - exists "True". split; [reflexivity|]. unfold true_spellings. simpl. tauto.
Defined.

(* ===================================================================== *)
(** ** Beyond the specification: the three entry points *)
(* ===================================================================== *)

Lemma settings_logs_accepted env rd st :
  outcome (_get_saml_settings env rd) = inr st ->
  logs (_get_saml_settings env rd) = [settings_built_record env].
Proof.
  intros H. rewrite settings_logs.
  now rewrite (proj1 (settings_accepted_iff env rd) (ex_intro _ st H)).
Qed.

(** X7.  When the settings are built and the library, after
    [process_response], lists no error and reports the user as
    authenticated, [process_saml_response] calls [CustomOpenID] with the
    keyword arguments of the mapping step, computed from the attributes and
    NameID of the library object, with provider saml and no team; it
    returns the instance the constructor builds, or lets its
    [ValidationError] through.  It logs the settings record at debug level,
    then the received NameID and attribute names at debug level, or a
    warning when the attribute statement is missing or empty, and then,
    only if the constructor has built the instance, the id and email
    arguments at info level. *)
Theorem accepted_response_builds_identity
    (lib : Imports) (env : gmap string string) (request : Request)
    (st : SamlSettings) (auth : SamlAuth) :
  outcome (_get_saml_settings env (response_request_data request)) = inr st ->
  Saml2_Auth_process_response lib (response_request_data request) st = inr auth ->
  get_errors auth = [] ->
  is_authenticated auth = true ->
  exists args,
    identity_arguments env (get_attributes auth) (get_nameid auth) = ([], inr args) /\
    provider args = Some "saml" /\ team_ids args = [] /\
    outcome (process_saml_response lib env request)
    = match CustomOpenID_init lib args with
      | inl msg => inl (ValidationError msg)
      | inr result => inr result
      end /\
    logs (process_saml_response lib env request)
    = [settings_built_record env;
       if truthy_attributes (get_attributes auth)
       then mkLog DEBUG ("SAML authentication successful - NameID: " +:+
                         Py.str_opt (get_nameid auth) +:+ ", Attributes: " +:+
                         Py.repr_list (repr_non_ascii lib)
                           (keys (default [] (get_attributes auth))))
       else mkLog WARNING
              ("SAML authentication successful but no attributes received - NameID: " +:+
               Py.str_opt (get_nameid auth) +:+ ". " +:+
               "Will use NameID as fallback for user information.")]
      ++ match CustomOpenID_init lib args with
         | inl _ => []
         | inr _ => [mkLog INFO ("SAML user authenticated - ID: " +:+
                                 Py.str_opt (id args) +:+
                                 ", Email: " +:+ Py.str_opt (email args))]
         end.
Proof.
  intros Hst Hlib Herr Hauth.
  exists (identity_of env (get_attributes auth) (get_nameid auth)).
  rewrite identity_arguments_identity_of. split; [reflexivity|].
  unfold process_saml_response. cbv zeta.
  change (set_post_data (_prepare_request_from_fastapi request) (dict (form request)))
    with (response_request_data request).
  rewrite logs_bind, outcome_bind, (settings_logs_accepted _ _ _ Hst), Hst.
  rewrite logs_bind, outcome_bind, logs_lift, outcome_lift, Hlib, Herr, Hauth.
  cbn [Py.truthy_list negb]. rewrite identity_arguments_identity_of.
  unfold new_CustomOpenID.
  destruct (truthy_attributes (get_attributes auth)); cbn [bind ret log];
    destruct (CustomOpenID_init lib
                (identity_of env (get_attributes auth) (get_nameid auth)));
    repeat split.
Qed.

Lemma accepted_response_builds_identity_witness :
  outcome (process_saml_response (mock_lib mock_success_auth) mock_saml_env_vars
             mock_request)
  = inr {| id := Some "user@example.com"; email := Some "user@example.com";
           first_name := Some "John"; last_name := Some "Doe";
           display_name := Some "John Doe";
           provider := Some "saml"; team_ids := [] |}.
Proof.
  destruct (_get_saml_settings mock_saml_env_vars (response_request_data mock_request))
    as [l [x|st]] eqn:E; [vm_compute in E; discriminate|].
  assert (Hst : outcome (_get_saml_settings mock_saml_env_vars
                           (response_request_data mock_request)) = inr st)
    by (rewrite E; reflexivity).
  destruct (accepted_response_builds_identity (mock_lib mock_success_auth)
              mock_saml_env_vars mock_request st mock_success_auth
              Hst eq_refl eq_refl eq_refl) as (args & Hargs & _ & _ & Hr & _).
  rewrite Hr. vm_compute in Hargs. injection Hargs as <-. reflexivity.
Defined.

(** X8.  A rejected response (errors listed, or the user not
    authenticated) leaves exactly two log records: the settings record and
    one record at error level, which shows the error list and reason of the
    library when errors are listed and a fixed text otherwise.  Listed
    errors take precedence over the authenticated flag. *)
Theorem rejected_response_logs
    (lib : Imports) (env : gmap string string) (request : Request)
    (st : SamlSettings) (auth : SamlAuth) :
  outcome (_get_saml_settings env (response_request_data request)) = inr st ->
  Saml2_Auth_process_response lib (response_request_data request) st = inr auth ->
  get_errors auth <> [] \/ is_authenticated auth = false ->
  logs (process_saml_response lib env request)
  = [settings_built_record env;
     mkLog ERROR
       (if Py.truthy_list (get_errors auth)
        then "SAML authentication failed - Errors: " +:+
             Py.repr_list (repr_non_ascii lib) (get_errors auth) +:+
             ", Reason: " +:+ Py.str_opt (get_last_error_reason auth)
        else "SAML authentication failed - User not authenticated")].
Proof.
  intros Hst Hlib Hrej. unfold process_saml_response. cbv zeta.
  change (set_post_data (_prepare_request_from_fastapi request) (dict (form request)))
    with (response_request_data request).
  rewrite logs_bind, (settings_logs_accepted _ _ _ Hst), Hst.
  rewrite logs_bind, logs_lift, outcome_lift, Hlib.
  destruct (get_errors auth) as [|err errs] eqn:Herr.
  - destruct Hrej as [Hrej|Hrej]; [congruence|]. rewrite Hrej. reflexivity.
  - reflexivity.
Qed.

Lemma rejected_response_logs_witness :
  map log_msg (logs (process_saml_response (mock_lib bad_signature_auth)
                       mock_saml_env_vars mock_request))
  = ["SAML settings built - SP Entity ID: https://proxy.example.com/sso/saml/metadata, IdP SSO URL: https://idp.example.com/sso";
     "SAML authentication failed - Errors: ['invalid_response'], Reason: Signature validation failed. SAML Response rejected"].
Proof.
  destruct (_get_saml_settings mock_saml_env_vars (response_request_data mock_request))
    as [l [x|st]] eqn:E; [vm_compute in E; discriminate|].
  assert (Hst : outcome (_get_saml_settings mock_saml_env_vars
                           (response_request_data mock_request)) = inr st)
    by (rewrite E; reflexivity).
  rewrite (rejected_response_logs (mock_lib bad_signature_auth) mock_saml_env_vars
             mock_request st bad_signature_auth Hst eq_refl (or_intror eq_refl)).
  reflexivity.
Defined.

(** X9.  No method catches an exception of the library.  When the
    settings are built and a library call raises, the exception leaves the
    method as it is, not as a [ProxyException] with an HTTP code, and only
    the settings record has been logged: in [process_saml_response], in
    [get_login_url], and in [get_metadata] for the generation of the
    metadata as for its validation. *)
Theorem library_exceptions_propagate
    (lib : Imports) (env : gmap string string) (request : Request) (msg : string) :
  (forall st,
     outcome (_get_saml_settings env (response_request_data request)) = inr st ->
     Saml2_Auth_process_response lib (response_request_data request) st = inl msg ->
     process_saml_response lib env request
     = ([settings_built_record env], inl (LibraryExn msg))) /\
  (forall st state,
     outcome (_get_saml_settings env (_prepare_request_from_fastapi request)) = inr st ->
     Saml2_Auth_login lib (_prepare_request_from_fastapi request) st state = inl msg ->
     get_login_url lib env request state
     = ([settings_built_record env], inl (LibraryExn msg))) /\
  (forall st,
     outcome (_get_saml_settings env (metadata_request_data env)) = inr st ->
     Saml2_Settings_get_sp_metadata lib st = inl msg ->
     get_metadata lib env = ([settings_built_record env], inl (LibraryExn msg))) /\
  (forall st metadata,
     outcome (_get_saml_settings env (metadata_request_data env)) = inr st ->
     Saml2_Settings_get_sp_metadata lib st = inr metadata ->
     Saml2_Settings_validate_metadata lib st metadata = inl msg ->
     get_metadata lib env = ([settings_built_record env], inl (LibraryExn msg))).
Proof.
  assert (Hpair : forall A (m : M A), m = (logs m, outcome m))
    by (intros A [l r]; reflexivity).
  repeat split.
  - intros st Hst Hlib. rewrite (Hpair _ (process_saml_response lib env request)).
    unfold process_saml_response. cbv zeta.
    change (set_post_data (_prepare_request_from_fastapi request) (dict (form request)))
      with (response_request_data request).
    rewrite logs_bind, outcome_bind, (settings_logs_accepted _ _ _ Hst), Hst.
    rewrite logs_bind, outcome_bind, logs_lift, outcome_lift, Hlib. reflexivity.
  - intros st state Hst Hlib. rewrite (Hpair _ (get_login_url lib env request state)).
    unfold get_login_url. cbv zeta.
    rewrite logs_bind, outcome_bind, (settings_logs_accepted _ _ _ Hst), Hst.
    rewrite logs_bind, outcome_bind, logs_lift, outcome_lift, Hlib. reflexivity.
  - intros st Hst Hlib. rewrite (Hpair _ (get_metadata lib env)).
    unfold get_metadata. cbv zeta.
    rewrite logs_bind, outcome_bind, (settings_logs_accepted _ _ _ Hst), Hst.
    rewrite logs_bind, outcome_bind, logs_lift, outcome_lift, Hlib. reflexivity.
  - intros st metadata Hst Hmd Hv. rewrite (Hpair _ (get_metadata lib env)).
    unfold get_metadata. cbv zeta.
    rewrite logs_bind, outcome_bind, (settings_logs_accepted _ _ _ Hst), Hst.
    rewrite logs_bind, outcome_bind, logs_lift, outcome_lift, Hmd.
    rewrite logs_bind, outcome_bind, logs_lift, outcome_lift, Hv. reflexivity.
Qed.

Lemma library_exceptions_propagate_witness :
  outcome (process_saml_response raising_lib mock_saml_env_vars mock_request)
  = inl (LibraryExn "SAML Response not found, Only supported HTTP_POST Binding").
Proof.
  destruct (_get_saml_settings mock_saml_env_vars (response_request_data mock_request))
    as [l [x|st]] eqn:E; [vm_compute in E; discriminate|].
  assert (Hst : outcome (_get_saml_settings mock_saml_env_vars
                           (response_request_data mock_request)) = inr st)
    by (rewrite E; reflexivity).
  rewrite (proj1 (library_exceptions_propagate raising_lib mock_saml_env_vars mock_request
                    "SAML Response not found, Only supported HTTP_POST Binding")
             st Hst eq_refl).
  reflexivity.
Defined.

(** X10.  The handler reads nothing of the request itself: settings
    construction ignores the request dictionary, and two requests for which
    the library comes back with the same result give the same result and
    the same log records of [process_saml_response]. *)
Theorem response_depends_on_request_through_library
    (lib : Imports) (env : gmap string string) (request1 request2 : Request) :
  (forall st,
     Saml2_Auth_process_response lib (response_request_data request1) st
     = Saml2_Auth_process_response lib (response_request_data request2) st) ->
  (forall rd1 rd2, _get_saml_settings env rd1 = _get_saml_settings env rd2) /\
  process_saml_response lib env request1 = process_saml_response lib env request2.
Proof.
  intros Hlib. split; [reflexivity|].
  unfold process_saml_response. cbv zeta.
  change (_get_saml_settings env
            (set_post_data (_prepare_request_from_fastapi request2) (dict (form request2))))
    with (_get_saml_settings env
            (set_post_data (_prepare_request_from_fastapi request1) (dict (form request1)))).
  destruct (_get_saml_settings env
              (set_post_data (_prepare_request_from_fastapi request1) (dict (form request1))))
    as [l [e|st]]; [reflexivity|].
  cbn [bind]. unfold response_request_data in Hlib. rewrite (Hlib st). reflexivity.
Qed.

Lemma response_depends_on_request_through_library_witness :
  process_saml_response (mock_lib mock_success_auth) mock_saml_env_vars mock_request
  = process_saml_response (mock_lib mock_success_auth) mock_saml_env_vars mock_double_post.
Proof.
  apply (response_depends_on_request_through_library (mock_lib mock_success_auth)
           mock_saml_env_vars mock_request mock_double_post).
  intros st. reflexivity.
Defined.

(** X11.  When the settings are built and the library returns a login
    URL, [get_login_url] returns that URL unchanged, having passed [state]
    on as the return address, and logs two debug records: the settings
    record and the whole login URL. *)
Theorem get_login_url_returns_library_url
    (lib : Imports) (env : gmap string string) (request : Request)
    (state : option string) (st : SamlSettings) (sso_url : string) :
  outcome (_get_saml_settings env (_prepare_request_from_fastapi request)) = inr st ->
  Saml2_Auth_login lib (_prepare_request_from_fastapi request) st state = inr sso_url ->
  get_login_url lib env request state
  = ([settings_built_record env; mkLog DEBUG ("Generated SAML login URL: " +:+ sso_url)],
     inr sso_url).
Proof.
  intros Hst Hlib.
  transitivity (logs (get_login_url lib env request state),
                outcome (get_login_url lib env request state));
    [destruct (get_login_url lib env request state); reflexivity|].
  unfold get_login_url. cbv zeta.
  rewrite logs_bind, outcome_bind, (settings_logs_accepted _ _ _ Hst), Hst.
  rewrite logs_bind, outcome_bind, logs_lift, outcome_lift, Hlib. reflexivity.
Qed.

Lemma get_login_url_returns_library_url_witness :
  outcome (get_login_url (mock_lib mock_success_auth) mock_saml_env_vars
             mock_login_request (Some "/ui"))
  = inr "https://idp.example.com/sso?SAMLRequest=...".
Proof.
  destruct (_get_saml_settings mock_saml_env_vars
              (_prepare_request_from_fastapi mock_login_request))
    as [l [x|st]] eqn:E; [vm_compute in E; discriminate|].
  assert (Hst : outcome (_get_saml_settings mock_saml_env_vars
                           (_prepare_request_from_fastapi mock_login_request)) = inr st)
    by (rewrite E; reflexivity).
  rewrite (get_login_url_returns_library_url (mock_lib mock_success_auth)
             mock_saml_env_vars mock_login_request (Some "/ui") st
             "https://idp.example.com/sso?SAMLRequest=..." Hst eq_refl).
  reflexivity.
Defined.

(** X12.  When the settings are built and the library generates and
    validates the metadata without raising, [get_metadata] logs the
    settings record and, if validation reports errors, one error record
    with the error list; the metadata text is in no record. *)
Theorem get_metadata_logs
    (lib : Imports) (env : gmap string string) (st : SamlSettings)
    (metadata : string) (errors : list string) :
  outcome (_get_saml_settings env (metadata_request_data env)) = inr st ->
  Saml2_Settings_get_sp_metadata lib st = inr metadata ->
  Saml2_Settings_validate_metadata lib st metadata = inr errors ->
  logs (get_metadata lib env)
  = settings_built_record env ::
    (if Py.truthy_list errors
     then [mkLog ERROR ("SAML metadata validation errors: " +:+
                        Py.repr_list (repr_non_ascii lib) errors)]
     else []).
Proof.
  intros Hst Hmd Hv. unfold get_metadata. cbv zeta.
  rewrite logs_bind, (settings_logs_accepted _ _ _ Hst), Hst.
  rewrite logs_bind, logs_lift, outcome_lift, Hmd.
  rewrite logs_bind, logs_lift, outcome_lift, Hv.
  destruct errors; reflexivity.
Qed.

Lemma get_metadata_logs_witness :
  map log_msg (logs (get_metadata invalid_metadata_lib mock_saml_env_vars))
  = ["SAML settings built - SP Entity ID: https://proxy.example.com/sso/saml/metadata, IdP SSO URL: https://idp.example.com/sso";
     "SAML metadata validation errors: ['noEntityDescriptor_xml', 'sp_acs_not_found']"].
Proof.
  destruct (_get_saml_settings mock_saml_env_vars (metadata_request_data mock_saml_env_vars))
    as [l [x|st]] eqn:E; [vm_compute in E; discriminate|].
  assert (Hst : outcome (_get_saml_settings mock_saml_env_vars
                           (metadata_request_data mock_saml_env_vars)) = inr st)
    by (rewrite E; reflexivity).
  rewrite (get_metadata_logs invalid_metadata_lib mock_saml_env_vars st
             "<md:EntityDescriptor/>" ["noEntityDescriptor_xml"; "sp_acs_not_found"]
             Hst eq_refl eq_refl).
  reflexivity.
Defined.

(* ===================================================================== *)
(** ** Beyond the specification: the identity record *)
(* ===================================================================== *)

(** X13.  In the keyword arguments the handler hands to [CustomOpenID],
    a non-empty NameID always gives a non-empty id and email, and a
    non-empty email always comes with a non-empty display name; so the id,
    email or display name argument can only be missing or empty when the
    NameID is. *)
Theorem identity_arguments_nonempty
    (env : gmap string string) (attributes : option Attributes)
    (name_id : option string) (args : CustomOpenID) :
  outcome (identity_arguments env attributes name_id) = inr args ->
  (Py.truthy name_id = true ->
     Py.truthy (id args) = true /\ Py.truthy (email args) = true) /\
  (Py.truthy (email args) = true -> Py.truthy (display_name args) = true) /\
  (Py.truthy (id args) = false \/ Py.truthy (email args) = false
   \/ Py.truthy (display_name args) = false -> Py.truthy name_id = false).
Proof.
  rewrite identity_arguments_identity_of. intros [= <-]. unfold identity_of. simpl.
  rewrite !usable_truthy.
  destruct (first_value attributes (getenv_default env "SAML_USER_ID_ATTRIBUTE" "email"))
    as [[|? ?]|];
  destruct (first_value attributes (getenv_default env "SAML_USER_EMAIL_ATTRIBUTE" "email"))
    as [[|? ?]|];
  destruct (first_value attributes
              (getenv_default env "SAML_USER_DISPLAY_NAME_ATTRIBUTE" "displayName"))
    as [[|? ?]|];
  destruct (first_value attributes
              (getenv_default env "SAML_USER_FIRST_NAME_ATTRIBUTE" "firstName"))
    as [[|? ?]|];
  destruct (first_value attributes
              (getenv_default env "SAML_USER_LAST_NAME_ATTRIBUTE" "lastName"))
    as [[|? ?]|];
  destruct name_id as [[|? ?]|]; simpl; intuition congruence.
Qed.

Lemma identity_arguments_nonempty_witness :
  exists args,
    outcome (identity_arguments mock_saml_env_vars (Some [("groups", ["admins"])])
               (Some "user@example.com")) = inr args /\
    Py.truthy (id args) = true /\ Py.truthy (email args) = true /\
    Py.truthy (display_name args) = true.
Proof.
  destruct (identity_arguments mock_saml_env_vars (Some [("groups", ["admins"])])
              (Some "user@example.com")) as [l [x|args]] eqn:E;
    [vm_compute in E; discriminate|].
  exists args. split; [reflexivity|].
  assert (Hr : outcome (identity_arguments mock_saml_env_vars
                          (Some [("groups", ["admins"])])
                          (Some "user@example.com")) = inr args)
    by (rewrite E; reflexivity).
  destruct (identity_arguments_nonempty _ _ _ _ Hr) as (Hn & Hd & _).
  destruct (Hn eq_refl) as (Hi & He). auto.
Defined.

(** X14.  When the id and the email are looked up under the same attribute
    name, as they are by default, the handler hands [CustomOpenID] one and
    the same value as id and as email. *)
Theorem id_is_email_under_one_name
    (env : gmap string string) (attributes : option Attributes)
    (name_id : option string) (args : CustomOpenID) :
  outcome (identity_arguments env attributes name_id) = inr args ->
  getenv_default env "SAML_USER_ID_ATTRIBUTE" "email"
  = getenv_default env "SAML_USER_EMAIL_ATTRIBUTE" "email" ->
  id args = email args.
Proof.
  rewrite identity_arguments_identity_of. intros [= <-] Hsame. unfold identity_of. simpl.
  now rewrite Hsame.
Qed.

Lemma id_is_email_under_one_name_witness :
  exists args,
    outcome (identity_arguments ∅ (Some [("email", ["a@b.com"]); ("uid", ["42"])])
               (Some "nameid")) = inr args /\
    id args = email args.
Proof.
  destruct (identity_arguments ∅ (Some [("email", ["a@b.com"]); ("uid", ["42"])])
              (Some "nameid"))
    as [l [x|args]] eqn:E; [vm_compute in E; discriminate|].
  exists args. split; [reflexivity|].
  apply (id_is_email_under_one_name ∅ (Some [("email", ["a@b.com"]); ("uid", ["42"])])
           (Some "nameid") args); [rewrite E|]; reflexivity.
Defined.

(** X15.  The identity depends on the attribute statement only through
    the first value of the five configured attribute names: further values
    of an attribute, attributes under other names and the order of the
    attributes make no difference. *)
Theorem identity_uses_first_values_only
    (lib : Imports) (env : gmap string string) (attributes1 attributes2 : option Attributes)
    (name_id : option string) :
  Forall (fun name => first_value attributes1 name = first_value attributes2 name)
         (attribute_names env) ->
  map_identity lib env attributes1 name_id = map_identity lib env attributes2 name_id.
Proof.
  unfold attribute_names. intros H.
  repeat match goal with
         | H : Forall _ (_ :: _) |- _ => apply Forall_cons_1 in H as [? H]
         end.
  cbv beta in *.
  rewrite !map_identity_identity_of. unfold identity_of.
  repeat match goal with
         | E : first_value attributes1 _ = _ |- _ => rewrite E; clear E
         end.
  reflexivity.
Qed.

Lemma identity_uses_first_values_only_witness :
  map_identity (mock_lib mock_success_auth) mock_saml_env_vars
    (Some [("email", ["a@b.com"; "second@b.com"]); ("firstName", ["A"]);
           ("groups", ["admins"])])
    (Some "nameid")
  = map_identity (mock_lib mock_success_auth) mock_saml_env_vars
      (Some [("firstName", ["A"; "Alpha"]); ("email", ["a@b.com"])])
      (Some "nameid").
Proof.
  apply identity_uses_first_values_only.
  unfold attribute_names. repeat constructor.
Defined.
